(** * leerdatos.py: campaign report over a tabular dataset

    Shallow embedding of the analysis functions of [src/leerdatos.py]
    (the report part of the script: grouped aggregations, KPIs, rankings,
    data validation and recommendations) and the properties of the
    specification that concern them.

    Conventions of the embedding.

    - A pandas [DataFrame] is a list of rows ([Campana]), in file order.
      A cell is an [option]: [None] is the missing value (NaN / None) that
      [read_csv] produces for an empty field.
    - Present numeric cells are finite numbers.  Binary floating point is
      idealised: finite numbers are exact rationals ([Qc]), and the values
      that only arise from computations (the mean of nothing, a division
      by zero) are the three non-finite values of [float64].  Zero carries
      no sign (it behaves as [+0.0]).
    - A column in which every cell holds an integer is an int64 column:
      the totals of [indicadores_clave] are then added in 64-bit two's
      complement, as numpy adds them.  (The frame does not record how a
      number is written in the file; a column of integers written with a
      decimal point, which [read_csv] types float64, is not told apart.
      The statements about the totals are made for sums that fit in 64
      bits, where the two dtypes agree.)  Means are taken in float64 and
      do not wrap.  The sums of the grouped tables are kept exact: the
      statements about them are read in exact arithmetic.
    - A frame without rows is the frame of a file that has only the
      header line: its columns have no numeric type.
    - pandas operations are embedded with their documented behaviour and
      the default arguments the script relies on: [skipna=True] for
      [sum], [mean], [max], [min], [idxmax], [idxmin]; [sort=True] and
      [dropna=True] for [groupby]; [keep='first'] for [nlargest] and
      [nsmallest]; half-to-even for [round].
    - [print] appends a structured event to the console; the textual
      layout of a line is not modelled, its tag ([OK], [ALERTA], ...),
      its wording and the values formatted into it are. *)

From Stdlib Require Import ZArith QArith Qcanon Qround.
From Stdlib Require Import List String Bool Lia Lqa Permutation Sorted.
From Stdlib Require Import OrderedTypeEx.
Import ListNotations.

(* ================================================================== *)
(** * Numbers *)
(* ================================================================== *)

Module Float.

(** A [float64] value: a finite number or one of the three special
    values. *)
Inductive float64 : Type :=
| Fin (q : Qc)
| PInf
| NInf
| NaN.

Definition of_Z (z : Z) : Qc := Q2Qc (inject_Z z).
Definition of_nat (n : nat) : Qc := of_Z (Z.of_nat n).

Definition Qcltb (x y : Qc) : bool :=
  match (x ?= y)%Qc with Lt => true | _ => false end.

Definition Qcleb (x y : Qc) : bool :=
  match (x ?= y)%Qc with Gt => false | _ => true end.

(** [a - b] *)
Definition fsub (a b : float64) : float64 :=
  match a, b with
  | NaN, _ | _, NaN => NaN
  | Fin x, Fin y => Fin (x - y)%Qc
  | Fin _, PInf => NInf
  | Fin _, NInf => PInf
  | PInf, PInf => NaN
  | NInf, NInf => NaN
  | PInf, _ => PInf
  | NInf, _ => NInf
  end.

(** [a / b] with numpy scalars: a zero divisor raises nothing, the
    quotient is an infinity with the sign of the dividend, or NaN for
    [0 / 0]. *)
Definition fdiv (a b : float64) : float64 :=
  match a, b with
  | NaN, _ | _, NaN => NaN
  | Fin x, Fin y =>
      match (y ?= 0)%Qc with
      | Eq => match (x ?= 0)%Qc with
              | Eq => NaN
              | Gt => PInf
              | Lt => NInf
              end
      | _ => Fin (x / y)%Qc
      end
  | Fin _, _ => Fin 0%Qc
  | PInf, Fin y => if Qcltb y 0%Qc then NInf else PInf
  | NInf, Fin y => if Qcltb y 0%Qc then PInf else NInf
  | _, _ => NaN
  end.

Definition inf_por (positivo : bool) (y : Qc) : float64 :=
  match (y ?= 0)%Qc with
  | Eq => NaN
  | Gt => if positivo then PInf else NInf
  | Lt => if positivo then NInf else PInf
  end.

(** [a * b] *)
Definition fmul (a b : float64) : float64 :=
  match a, b with
  | NaN, _ | _, NaN => NaN
  | Fin x, Fin y => Fin (x * y)%Qc
  | PInf, Fin y | Fin y, PInf => inf_por true y
  | NInf, Fin y | Fin y, NInf => inf_por false y
  | PInf, PInf | NInf, NInf => PInf
  | PInf, NInf | NInf, PInf => NInf
  end.

(** [a > b]; any comparison with NaN is [False]. *)
Definition fgtb (a b : float64) : bool :=
  match a, b with
  | Fin x, Fin y => Qcltb y x
  | PInf, Fin _ | PInf, NInf | Fin _, NInf => true
  | _, _ => false
  end.

(** Nearest integer, ties to the even one ([numpy.rint]). *)
Definition rint (q : Q) : Z :=
  let f := Qfloor q in
  match Qcompare (q - inject_Z f) (1 # 2) with
  | Lt => f
  | Gt => (f + 1)%Z
  | Eq => if Z.even f then f else (f + 1)%Z
  end.

(** [round(x, 2)]: [rint(x * 100) / 100], on the exact value.  (The
    binary double nearest to a decimal that ends in 5 at the third place
    may lie on either side of it; the rounding of such a value is the one
    of the exact decimal here.) *)
Definition round2 (a : float64) : float64 :=
  match a with
  | Fin q => Fin (of_Z (rint (q * of_Z 100)%Qc) / of_Z 100)%Qc
  | _ => a
  end.

(** The mathematical reading of [a > c] for a finite bound [c]. *)
Definition mayor_que (a : float64) (c : Qc) : Prop :=
  match a with
  | Fin q => (c < q)%Qc
  | PInf => True
  | _ => False
  end.

End Float.
Import Float.

(* ================================================================== *)
(** * Data model *)
(* ================================================================== *)

(** One row of [datos_sinteticos.csv]. *)
Record Campana : Type := mkCampana {
  campana_id         : option string;
  plataforma         : option string;
  tipo_campana       : option string;
  audiencia_objetivo : option string;
  presupuesto_diario : option Qc;
  impresiones        : option Qc;
  clicks             : option Qc;
  conversiones       : option Qc;
  costo_total        : option Qc;
  revenue_generado   : option Qc;
  ctr                : option Qc;
  conversion_rate    : option Qc;
  cpc                : option Qc;
  cpa                : option Qc;
  roas               : option Qc
}.

Definition DataFrame : Type := list Campana.

(** A numeric column, [df['col']]. *)
Definition Series : Type := list (option Qc).

(** The dictionary returned by [indicadores_clave]. *)
Record KPIs : Type := mkKPIs {
  kpi_ctr               : float64;
  kpi_conversion_rate   : float64;
  kpi_cpc               : float64;
  kpi_cpa               : float64;
  kpi_roas              : float64;
  kpi_presupuesto_total : float64;
  kpi_costo_total       : float64;
  kpi_revenue_total     : float64;
  kpi_ganancia_neta     : float64
}.

(* ================================================================== *)
(** * pandas: reductions of a column *)
(* ================================================================== *)

Module Pandas.

Definition col {A : Type} (f : Campana -> option A) (df : DataFrame)
  : list (option A) := map f df.

Fixpoint dropna {A : Type} (s : list (option A)) : list A :=
  match s with
  | [] => []
  | Some x :: s' => x :: dropna s'
  | None :: s' => dropna s'
  end.

(** Exact sum of a list of numbers (exact addition is associative and
    commutative, the order of accumulation is immaterial). *)
Fixpoint suma (xs : list Qc) : Qc :=
  match xs with
  | [] => 0%Qc
  | x :: xs' => (x + suma xs')%Qc
  end.

(** [Series.sum()]: missing values are skipped, the sum of nothing is 0. *)
Definition sum (s : Series) : float64 := Fin (suma (dropna s)).

(** [Series.mean()]: missing values are skipped, the mean of nothing is
    NaN. *)
Definition mean (s : Series) : float64 :=
  let xs := dropna s in
  match xs with
  | [] => NaN
  | _ :: _ => Fin (suma xs / of_nat (List.length xs))%Qc
  end.

(** [Series.count()]: number of values that are present. *)
Definition count {A : Type} (s : list (option A)) : nat :=
  List.length (dropna s).

(** ** Integer columns *)

(** The value of a 64-bit two's complement integer after an addition or
    a subtraction whose exact result is [z]. *)
Definition wrap64 (z : Z) : Z :=
  ((z + 2 ^ 63) mod 2 ^ 64 - 2 ^ 63)%Z.

(** The same on a number that is an integer. *)
Definition envuelve (q : Qc) : Qc := of_Z (wrap64 (Qfloor q)).

Definition es_entero (q : Qc) : bool := Pos.eqb (Qden q) 1.

Definition en_int64 (q : Qc) : bool :=
  Z.leb (- 2 ^ 63) (Qnum q) && Z.ltb (Qnum q) (2 ^ 63).

(** The dtype of a column is int64 when every cell holds an integer that
    fits; a missing value or a fraction makes it float64.  (A column
    without cells adds up to 0 either way.) *)
Definition es_int64 (s : Series) : bool :=
  forallb (fun x => match x with
                    | Some q => es_entero q && en_int64 q
                    | None => false
                    end) s.

(** [df[c].sum()] of a column of the frame, by its dtype: an int64
    column is added in int64 and wraps without an error. *)
Definition total (s : Series) : float64 :=
  if es_int64 s then Fin (envuelve (suma (dropna s))) else sum s.

(** [a - b] of two int64 scalars. *)
Definition int64_sub (a b : float64) : float64 :=
  match a, b with
  | Fin x, Fin y => Fin (of_Z (wrap64 (Qfloor x - Qfloor y)))
  | _, _ => fsub a b
  end.

(** [a - b] of the totals of two columns: in int64 when both columns
    are, in float64 otherwise. *)
Definition resta_totales (sa sb : Series) (a b : float64) : float64 :=
  if es_int64 sa && es_int64 sb then int64_sub a b else fsub a b.

End Pandas.
Import Pandas.

(* ================================================================== *)
(** * pandas: frames, groups, rankings *)
(* ================================================================== *)

(** A printed value. *)
Inductive Celda : Type :=
| CTexto (s : option string)
| CEntero (n : Z)
| CNumero (x : float64).

(** The value of a numeric cell: a missing one reads as NaN. *)
Definition de_celda (x : option Qc) : float64 :=
  match x with
  | Some q => Fin q
  | None => NaN
  end.

Definition celda_num (x : option Qc) : Celda := CNumero (de_celda x).

(** The columns of the frame, in file order. *)
Inductive Columna : Type :=
| Col_campana_id | Col_plataforma | Col_tipo_campana | Col_audiencia_objetivo
| Col_presupuesto_diario | Col_impresiones | Col_clicks | Col_conversiones
| Col_costo_total | Col_revenue_generado
| Col_ctr | Col_conversion_rate | Col_cpc | Col_cpa | Col_roas.

Definition columns : list Columna :=
  [ Col_campana_id; Col_plataforma; Col_tipo_campana; Col_audiencia_objetivo;
    Col_presupuesto_diario; Col_impresiones; Col_clicks; Col_conversiones;
    Col_costo_total; Col_revenue_generado;
    Col_ctr; Col_conversion_rate; Col_cpc; Col_cpa; Col_roas ].

(** The header of a column in the file. *)
Definition nombre (c : Columna) : string :=
  match c with
  | Col_campana_id         => "campana_id"
  | Col_plataforma         => "plataforma"
  | Col_tipo_campana       => "tipo_campana"
  | Col_audiencia_objetivo => "audiencia_objetivo"
  | Col_presupuesto_diario => "presupuesto_diario"
  | Col_impresiones        => "impresiones"
  | Col_clicks             => "clicks"
  | Col_conversiones       => "conversiones"
  | Col_costo_total        => "costo_total"
  | Col_revenue_generado   => "revenue_generado"
  | Col_ctr                => "ctr"
  | Col_conversion_rate    => "conversion_rate"
  | Col_cpc                => "cpc"
  | Col_cpa                => "cpa"
  | Col_roas               => "roas"
  end.

Definition falta {A : Type} (x : option A) : bool :=
  match x with Some _ => false | None => true end.

(** [df.isnull()] at column [c] of row [r]. *)
Definition isnull (c : Columna) (r : Campana) : bool :=
  match c with
  | Col_campana_id         => falta (campana_id r)
  | Col_plataforma         => falta (plataforma r)
  | Col_tipo_campana       => falta (tipo_campana r)
  | Col_audiencia_objetivo => falta (audiencia_objetivo r)
  | Col_presupuesto_diario => falta (presupuesto_diario r)
  | Col_impresiones        => falta (impresiones r)
  | Col_clicks             => falta (clicks r)
  | Col_conversiones       => falta (conversiones r)
  | Col_costo_total        => falta (costo_total r)
  | Col_revenue_generado   => falta (revenue_generado r)
  | Col_ctr                => falta (ctr r)
  | Col_conversion_rate    => falta (conversion_rate r)
  | Col_cpc                => falta (cpc r)
  | Col_cpa                => falta (cpa r)
  | Col_roas               => falta (roas r)
  end.

Module Frame.

(** ** groupby *)

(** Sorted insertion of a group key, without repetition. *)
Fixpoint inserta_clave (k : string) (ks : list string) : list string :=
  match ks with
  | [] => [k]
  | k' :: ks' =>
      match String.compare k k' with
      | Lt => k :: ks
      | Eq => ks
      | Gt => k' :: inserta_clave k ks'
      end
  end.

(** The group keys of a key column: the distinct values that are
    present ([dropna=True]), in ascending order ([sort=True]). *)
Definition claves (s : list (option string)) : list string :=
  fold_right inserta_clave [] (dropna s).

Definition tiene_clave (key : Campana -> option string) (k : string)
  (r : Campana) : bool :=
  match key r with
  | Some k' => String.eqb k' k
  | None => false
  end.

(** [df.groupby(key)]: each group key with its rows, in file order. *)
Definition groupby (key : Campana -> option string) (df : DataFrame)
  : list (string * DataFrame) :=
  map (fun k => (k, filter (tiene_clave key k) df)) (claves (col key df)).

(** One entry of the dictionary given to [agg]. *)
Inductive Agg : Type :=
| AggCount (c : Campana -> option string)
| AggSum (c : Campana -> option Qc)
| AggMean (c : Campana -> option Qc).

Definition aplica (a : Agg) (g : DataFrame) : Celda :=
  match a with
  | AggCount c => CEntero (Z.of_nat (count (col c g)))
  | AggSum c => CNumero (sum (col c g))
  | AggMean c => CNumero (mean (col c g))
  end.

(** An aggregated table: one row per group key. *)
Definition Tabla : Type := list (string * list Celda).

(** [groups.agg({...})] *)
Definition agg (spec : list Agg) (groups : list (string * DataFrame))
  : Tabla :=
  map (fun kg => (fst kg, map (fun a => aplica a (snd kg)) spec)) groups.

(** [table.round(2)]: integer columns are left as they are. *)
Definition round_celda (c : Celda) : Celda :=
  match c with
  | CNumero x => CNumero (round2 x)
  | _ => c
  end.

Definition round (t : Tabla) : Tabla :=
  map (fun row => (fst row, map round_celda (snd row))) t.

(** The index of a table and one of its columns as numbers. *)
Definition indice (t : Tabla) : list string := map fst t.

Definition valor_celda (c : option Celda) : float64 :=
  match c with
  | Some (CNumero x) => x
  | Some (CEntero n) => Fin (of_Z n)
  | _ => NaN
  end.

Definition columna (i : nat) (t : Tabla) : list float64 :=
  map (fun row => valor_celda (nth_error (snd row) i)) t.

(** ** nlargest / nsmallest *)

(** Stable insertion: [x] goes before the first element it may
    precede. *)
Fixpoint inserta {A : Type} (le : A -> A -> bool) (x : A) (l : list A)
  : list A :=
  match l with
  | [] => [x]
  | y :: l' => if le x y then x :: l else y :: inserta le x l'
  end.

(** Stable sort. *)
Definition ordena {A : Type} (le : A -> A -> bool) (l : list A) : list A :=
  fold_right (inserta le) [] l.

(** Descending order of a cell, missing values last. *)
Definition desc (a b : option Qc) : bool :=
  match a, b with
  | Some x, Some y => Qcleb y x
  | Some _, None => true
  | None, Some _ => false
  | None, None => true
  end.

(** Ascending order of a cell, missing values last. *)
Definition asc (a b : option Qc) : bool :=
  match a, b with
  | Some x, Some y => Qcleb x y
  | Some _, None => true
  | None, Some _ => false
  | None, None => true
  end.

(** [head(n)] for an integer [n]; nothing for [n <= 0]. *)
Definition head {A : Type} (n : Z) (l : list A) : list A :=
  firstn (Z.to_nat n) l.

(** [df.nlargest(n, c)] with [keep='first']: the first [n] rows in
    descending order of [c]; equal values stay in file order.  This is
    the selection made on a column of numeric dtype; the refusal of a
    column of dtype object is [comprueba_dtype] below. *)
Definition nlargest (n : Z) (c : Campana -> option Qc) (df : DataFrame)
  : DataFrame :=
  head n (ordena (fun a b => desc (c a) (c b)) df).

(** [df.nsmallest(n, c)] with [keep='first']. *)
Definition nsmallest (n : Z) (c : Campana -> option Qc) (df : DataFrame)
  : DataFrame :=
  head n (ordena (fun a b => asc (c a) (c b)) df).

(** ** Extremes of an indexed series *)

(** The entry of [s] that is best for [gt], NaN skipped; among equal
    values the first one. *)
Fixpoint mejor (gt : float64 -> float64 -> bool)
  (s : list (string * float64)) (acc : option (string * float64))
  : option (string * float64) :=
  match s with
  | [] => acc
  | (k, v) :: s' =>
      match v with
      | NaN => mejor gt s' acc
      | _ =>
          match acc with
          | None => mejor gt s' (Some (k, v))
          | Some (_, b) =>
              if gt v b then mejor gt s' (Some (k, v)) else mejor gt s' acc
          end
      end
  end.

(** [s.idxmax()]; [None] stands for the [ValueError] pandas raises when
    there is no value to take the maximum of. *)
Definition idxmax (s : list (string * float64)) : option string :=
  option_map fst (mejor fgtb s None).

Definition idxmin (s : list (string * float64)) : option string :=
  option_map fst (mejor (fun a b => fgtb b a) s None).

(** [s.max()], [s.min()] *)
Definition max (s : list (string * float64)) : float64 :=
  match mejor fgtb s None with Some (_, v) => v | None => NaN end.

Definition min (s : list (string * float64)) : float64 :=
  match mejor (fun a b => fgtb b a) s None with
  | Some (_, v) => v
  | None => NaN
  end.

(** [df.groupby(key)['roas'].mean()] *)
Definition roas_medio (key : Campana -> option string) (df : DataFrame)
  : list (string * float64) :=
  map (fun kg => (fst kg, mean (col roas (snd kg)))) (groupby key df).

(** ** Missing values *)

(** [df.isnull().sum()]: number of missing values per column. *)
Definition nulos (df : DataFrame) : list (Columna * nat) :=
  map (fun c => (c, List.length (filter (isnull c) df))) columns.

End Frame.
Import Frame.

(* ================================================================== *)
(** * The console *)
(* ================================================================== *)

(** The tag a report line starts with. *)
Inductive Etiqueta : Type :=
| Plano | OK | ERROR | ALERTA | MEJOR | PEOR | ACCION.

(** What one call of [print] (or of [print_section]) writes. *)
Inductive Out : Type :=
| Seccion (titulo : string) (valores : list Celda)
| Linea (e : Etiqueta) (texto : string) (valores : list Celda)
| Cuadro (cabecera : list string) (filas : list (list Celda)).

Inductive Excepcion : Type :=
| ValueError
| TypeError.

Module Run.

Definition Consola : Type := list Out.

Inductive Resultado (A : Type) : Type :=
| Devuelve (a : A)
| Lanza (e : Excepcion).
Arguments Devuelve {A} a.
Arguments Lanza {A} e.

(** A computation that writes to the console and returns or raises. *)
Definition M (A : Type) : Type := Consola -> Resultado A * Consola.

Definition ret {A : Type} (a : A) : M A := fun c => (Devuelve a, c).

Definition bind {A B : Type} (m : M A) (k : A -> M B) : M B :=
  fun c =>
    match m c with
    | (Devuelve a, c') => k a c'
    | (Lanza e, c') => (Lanza e, c')
    end.

Definition print (o : Out) : M unit := fun c => (Devuelve tt, c ++ [o]).

Definition raise {A : Type} (e : Excepcion) : M A := fun c => (Lanza e, c).

Definition o_raise {A : Type} (x : option A) (e : Excepcion) : M A :=
  match x with
  | Some a => ret a
  | None => raise e
  end.

(** What a computation writes and gives when the console is blank. *)
Definition salida {A : Type} (m : M A) : list Out := snd (m []).
Definition valor {A : Type} (m : M A) : Resultado A := fst (m []).

End Run.
Import Run.

Notation "x <- m ;; k" := (bind m (fun x => k))
  (at level 61, m at next level, right associativity).
Notation "m ;; k" := (bind m (fun _ => k))
  (at level 61, right associativity).

Local Open Scope string_scope.

(* ================================================================== *)
(** * The report *)
(* ================================================================== *)

Definition print_section (title : string) (valores : list Celda) : M unit :=
  print (Seccion title valores).

Definition filas (t : Tabla) : list (list Celda) :=
  map (fun row => CTexto (Some (fst row)) :: snd row) t.

(** ** 4. to 6.: grouped tables *)

(** The frame [plataformas] of [analisis_por_plataforma]. *)
Definition plataformas (df : DataFrame) : Tabla :=
  round (agg [ AggCount campana_id;
               AggSum presupuesto_diario;
               AggSum impresiones;
               AggSum clicks;
               AggSum conversiones;
               AggSum costo_total;
               AggSum revenue_generado;
               AggMean roas ]
             (groupby plataforma df)).

Definition analisis_por_plataforma (df : DataFrame) : M unit :=
  print_section "4. ANALISIS POR PLATAFORMA" [] ;;
  print (Cuadro [ "Campanas"; "Presupuesto Total"; "Impresiones"; "Clicks";
                  "Conversiones"; "Costo Total"; "Revenue"; "ROAS Promedio" ]
                (filas (plataformas df))).

(** The frame [tipos] of [analisis_por_tipo_campana]. *)
Definition tipos (df : DataFrame) : Tabla :=
  round (agg [ AggCount campana_id;
               AggSum clicks;
               AggSum conversiones;
               AggMean conversion_rate;
               AggMean roas ]
             (groupby tipo_campana df)).

Definition analisis_por_tipo_campana (df : DataFrame) : M unit :=
  print_section "5. ANALISIS POR TIPO DE CAMPANA" [] ;;
  print (Cuadro [ "Campanas"; "Total Clicks"; "Conversiones";
                  "Conversion Rate Promedio"; "ROAS Promedio" ]
                (filas (tipos df))).

(** The frame [edades] of [analisis_por_edad]. *)
Definition edades (df : DataFrame) : Tabla :=
  round (agg [ AggCount campana_id;
               AggSum conversiones;
               AggSum costo_total;
               AggSum revenue_generado;
               AggMean roas ]
             (groupby audiencia_objetivo df)).

Definition analisis_por_edad (df : DataFrame) : M unit :=
  print_section "6. ANALISIS POR GRUPO DE EDAD" [] ;;
  print (Cuadro [ "Campanas"; "Conversiones"; "Costo"; "Revenue";
                  "ROAS Promedio" ]
                (filas (edades df))).

(** ** 7. KPIs *)

Definition indicadores_clave (df : DataFrame) : M KPIs :=
  print_section "7. INDICADORES CLAVE (KPIs)" [] ;;
  let ctr_promedio := mean (col ctr df) in
  let conversion_rate_promedio := mean (col conversion_rate df) in
  let cpc_promedio := mean (col cpc df) in
  let cpa_promedio := mean (col cpa df) in
  let roas_promedio := mean (col roas df) in
  let presupuesto_total := total (col presupuesto_diario df) in
  let costo_total' := total (col costo_total df) in
  let revenue_total := total (col revenue_generado df) in
  let ganancia_neta :=
    resta_totales (col revenue_generado df) (col costo_total df)
      revenue_total costo_total' in
  print (Linea Plano "CTR (Click-Through Rate) Promedio"
           [CNumero ctr_promedio]) ;;
  print (Linea Plano "Conversion Rate Promedio"
           [CNumero conversion_rate_promedio]) ;;
  print (Linea Plano "CPC (Costo por Click) Promedio"
           [CNumero cpc_promedio]) ;;
  print (Linea Plano "CPA (Costo por Adquisicion) Promedio"
           [CNumero cpa_promedio]) ;;
  print (Linea Plano "ROAS (Return on Ad Spend) Promedio"
           [CNumero roas_promedio]) ;;
  print (Linea Plano "Presupuesto Total Invertido"
           [CNumero presupuesto_total]) ;;
  print (Linea Plano "Costo Total Real" [CNumero costo_total']) ;;
  print (Linea Plano "Revenue Generado" [CNumero revenue_total]) ;;
  print (Linea Plano "Ganancia Neta" [CNumero ganancia_neta]) ;;
  ret {| kpi_ctr := ctr_promedio;
         kpi_conversion_rate := conversion_rate_promedio;
         kpi_cpc := cpc_promedio;
         kpi_cpa := cpa_promedio;
         kpi_roas := roas_promedio;
         kpi_presupuesto_total := presupuesto_total;
         kpi_costo_total := costo_total';
         kpi_revenue_total := revenue_total;
         kpi_ganancia_neta := ganancia_neta |}.

(** ** 8. and 9.: rankings *)

(** The six columns kept for the listing. *)
Definition seleccion (r : Campana) : list Celda :=
  [ CTexto (campana_id r); CTexto (plataforma r); CTexto (tipo_campana r);
    celda_num (roas r); celda_num (revenue_generado r);
    celda_num (costo_total r) ].

Definition cabecera_seleccion : list string :=
  [ "campana_id"; "plataforma"; "tipo_campana"; "roas"; "revenue_generado";
    "costo_total" ].

(** The columns of a frame without rows have dtype object. *)
Definition sin_tipo (df : DataFrame) : bool :=
  match df with
  | [] => true
  | _ :: _ => false
  end.

(** The check that [df.nlargest] and [df.nsmallest] make of the dtype of
    the column, before they look at [n]. *)
Definition comprueba_dtype (df : DataFrame) : M unit :=
  if sin_tipo df then raise TypeError else ret tt.

(** The frame [top] of [campanas_top]. *)
Definition top (df : DataFrame) (n : Z) : list (list Celda) :=
  map seleccion (nlargest n roas df).

Definition campanas_top (df : DataFrame) (n : Z) : M unit :=
  print_section "8. TOP n CAMPANAS POR ROAS" [CEntero n] ;;
  comprueba_dtype df ;;
  print (Cuadro cabecera_seleccion (top df n)).

(** The frame [bottom] of [campanas_bottom]. *)
Definition bottom (df : DataFrame) (n : Z) : list (list Celda) :=
  map seleccion (nsmallest n roas df).

Definition campanas_bottom (df : DataFrame) (n : Z) : M unit :=
  print_section "9. BOTTOM n CAMPANAS POR ROAS" [CEntero n] ;;
  comprueba_dtype df ;;
  print (Cuadro cabecera_seleccion (bottom df n)).

(** ** 10. validation *)

(** The series [faltantes] of [validacion_datos]. *)
Definition faltantes (df : DataFrame) : list (Columna * nat) := nulos df.

(** [faltantes.sum()] *)
Definition total_faltantes (df : DataFrame) : nat :=
  list_sum (map snd (faltantes df)).

(** The entry of [faltantes] for one column. *)
Definition faltantes_de (c : Columna) (df : DataFrame) : nat :=
  List.length (filter (isnull c) df).

Definition validacion_datos (df : DataFrame) : M nat :=
  print_section "10. VALIDACION DE DATOS" [] ;;
  print (Linea Plano "Valores faltantes por columna:" []) ;;
  print (Cuadro []
           (map (fun cn => [ CTexto (Some (nombre (fst cn)));
                             CEntero (Z.of_nat (snd cn)) ])
                (faltantes df))) ;;
  (if Nat.eqb (total_faltantes df) 0
   then print (Linea OK "No hay valores faltantes - Datos integros" [])
   else print (Linea ERROR "Hay valores faltantes a revisar"
                 [CEntero (Z.of_nat (total_faltantes df))])) ;;
  ret (total_faltantes df).

(** ** 11. recommendations *)

(** The two conditions of section 3 of the recommendations. *)
Definition roas_saludable (kpis : KPIs) : bool :=
  fgtb (kpi_roas kpis) (Fin (of_Z 5)).

Definition conversion_respetable (kpis : KPIs) : bool :=
  fgtb (kpi_conversion_rate kpis) (Fin (of_Z 3)).

(** The value [margen] of section 4 of the recommendations. *)
Definition margen (kpis : KPIs) : float64 :=
  fmul (fdiv (kpi_ganancia_neta kpis) (kpi_revenue_total kpis))
       (Fin (of_Z 100)).

Definition msg_roas_ok : string :=
  "ROAS promedio es saludable (>5x es excelente)".
Definition msg_roas_alerta : string :=
  "ROAS promedio esta por debajo de lo ideal (objetivo >5x)".
Definition msg_conversion_ok : string :=
  "Conversion Rate es respectable".
Definition msg_conversion_alerta : string :=
  "Conversion Rate necesita mejora".
Definition msg_margen : string :=
  "Margen de ganancia".

Definition recomendaciones (df : DataFrame) (kpis : KPIs) : M unit :=
  print_section "11. RECOMENDACIONES ESTRATEGICAS" [] ;;
  mejor_plataforma <- o_raise (idxmax (roas_medio plataforma df)) ValueError ;;
  let mejor_roas := max (roas_medio plataforma df) in
  peor_plataforma <- o_raise (idxmin (roas_medio plataforma df)) ValueError ;;
  let peor_roas := min (roas_medio plataforma df) in
  mejor_edad <-
    o_raise (idxmax (roas_medio audiencia_objetivo df)) ValueError ;;
  let mejor_edad_roas := max (roas_medio audiencia_objetivo df) in
  peor_edad <-
    o_raise (idxmin (roas_medio audiencia_objetivo df)) ValueError ;;
  let peor_edad_roas := min (roas_medio audiencia_objetivo df) in
  print (Linea Plano "1. PLATAFORMAS:" []) ;;
  print (Linea MEJOR "Mejor rendimiento"
           [CTexto (Some mejor_plataforma); CNumero mejor_roas]) ;;
  print (Linea PEOR "Peor rendimiento"
           [CTexto (Some peor_plataforma); CNumero peor_roas]) ;;
  print (Linea ACCION "Aumentar inversion en la mejor y revisar la peor"
           [CTexto (Some mejor_plataforma); CTexto (Some peor_plataforma)]) ;;
  print (Linea Plano "2. PUBLICO OBJETIVO:" []) ;;
  print (Linea MEJOR "Mejor rendimiento (anos)"
           [CTexto (Some mejor_edad); CNumero mejor_edad_roas]) ;;
  print (Linea PEOR "Peor rendimiento (anos)"
           [CTexto (Some peor_edad); CNumero peor_edad_roas]) ;;
  print (Linea ACCION "Maximizar el mejor grupo, optimizar o pausar el peor"
           [CTexto (Some mejor_edad); CTexto (Some peor_edad)]) ;;
  print (Linea Plano "3. METRICAS CLAVE:" []) ;;
  (if roas_saludable kpis
   then print (Linea OK msg_roas_ok [CNumero (kpi_roas kpis)])
   else print (Linea ALERTA msg_roas_alerta [CNumero (kpi_roas kpis)])) ;;
  (if conversion_respetable kpis
   then print (Linea OK msg_conversion_ok
                 [CNumero (kpi_conversion_rate kpis)])
   else print (Linea ALERTA msg_conversion_alerta
                 [CNumero (kpi_conversion_rate kpis)])) ;;
  print (Linea Plano "4. RENTABILIDAD:" []) ;;
  let margen := margen kpis in
  print (Linea OK "Ganancia" [CNumero (kpi_ganancia_neta kpis)]) ;;
  print (Linea OK msg_margen [CNumero margen]).

(* ================================================================== *)
(** * Sample data *)
(* ================================================================== *)

Definition dec (n : Z) (d : positive) : Qc := Q2Qc (n # d).

(** A row that has only the fields the specification's scenario names. *)
Definition fila (id plat edad : string) (r rev cost : Qc) : Campana :=
  {| campana_id := Some id; plataforma := Some plat;
     tipo_campana := Some "Search"; audiencia_objetivo := Some edad;
     presupuesto_diario := Some (dec 10 1); impresiones := Some (dec 1000 1);
     clicks := Some (dec 100 1); conversiones := Some (dec 10 1);
     costo_total := Some cost; revenue_generado := Some rev;
     ctr := Some (dec 10 1); conversion_rate := Some (dec 10 1);
     cpc := Some (dec 1 2); cpa := Some (dec 5 1); roas := Some r |}.

(** The scenario of the specification: platforms A and B with ROAS 2 and
    8. *)
Definition df_AB : DataFrame :=
  [ fila "c1" "A" "18-24" (dec 2 1) (dec 100 1) (dec 50 1);
    fila "c2" "B" "25-34" (dec 8 1) (dec 400 1) (dec 50 1) ].

(** The same rows with B first. *)
Definition df_BA : DataFrame :=
  [ fila "c2" "B" "25-34" (dec 8 1) (dec 400 1) (dec 50 1);
    fila "c1" "A" "18-24" (dec 2 1) (dec 100 1) (dec 50 1) ].



(** One campaign that cost 50 and earned nothing. *)
Definition df_sin_revenue : DataFrame :=
  [ fila "c1" "A" "18-24" (dec 0 1) (dec 0 1) (dec 50 1) ].

(** A KPI dictionary with given revenue and cost; the means are those of
    [df_AB]. *)
Definition kpis_de (revenue cost : Qc) : KPIs :=
  {| kpi_ctr := Fin (dec 10 1); kpi_conversion_rate := Fin (dec 10 1);
     kpi_cpc := Fin (dec 1 2); kpi_cpa := Fin (dec 5 1);
     kpi_roas := Fin (dec 5 1);
     kpi_presupuesto_total := Fin (dec 20 1);
     kpi_costo_total := Fin cost;
     kpi_revenue_total := Fin revenue;
     kpi_ganancia_neta := fsub (Fin revenue) (Fin cost) |}.

(* ================================================================== *)
(** * Reference notions of the specification *)
(* ================================================================== *)

Module Ref.

(** Sum of a column over the records, a missing value adding nothing. *)
Definition suma_columna (c : Campana -> option Qc) (df : DataFrame) : Qc :=
  fold_left (fun acc r => match c r with
                          | Some q => (acc + q)%Qc
                          | None => acc
                          end) df 0%Qc.



(** A number that a 64-bit integer can hold. *)
Definition en_rango (q : Qc) : Prop :=
  (of_Z (- 2 ^ 63) <= q /\ q < of_Z (2 ^ 63))%Qc.

Definition completa {A : Type} (c : Campana -> option A) (df : DataFrame)
  : Prop :=
  Forall (fun r => c r <> None) df.

(** The distinct values of a list, in the order of their first
    occurrence. *)
Fixpoint primeras (vistos : list string) (l : list string) : list string :=
  match l with
  | [] => []
  | k :: l' =>
      if existsb (String.eqb k) vistos then primeras vistos l'
      else k :: primeras (k :: vistos) l'
  end.

Definition orden_de_aparicion (key : Campana -> option string)
  (df : DataFrame) : list string :=
  primeras [] (dropna (col key df)).

(** Strictly ascending keys. *)
Definition ascendente (ks : list string) : Prop :=
  StronglySorted (fun a b => String.compare a b = Lt) ks.

(** The rows whose cell in [c] equals [v]. *)
Definition igual (c : Campana -> option Qc) (v : option Qc) (r : Campana)
  : bool :=
  match c r, v with
  | Some x, Some y => Qc_eq_bool x y
  | None, None => true
  | _, _ => false
  end.

(** [a + b] and the sum of a list of values. *)
Definition fadd (a b : float64) : float64 :=
  match a, b with
  | NaN, _ | _, NaN => NaN
  | Fin x, Fin y => Fin (x + y)%Qc
  | PInf, NInf | NInf, PInf => NaN
  | PInf, _ | _, PInf => PInf
  | NInf, _ | _, NInf => NInf
  end.

Definition fsum (l : list float64) : float64 :=
  fold_right fadd (Fin 0%Qc) l.

(** A number with at most two decimals. *)
Definition centesimal (q : Qc) : bool :=
  Pos.eqb (Qden (this (q * of_Z 100)%Qc)) 1.


(** Row [r] with the cell of column [c] made missing. *)
Definition borra (c : Columna) (r : Campana) : Campana :=
  match c with
  | Col_campana_id =>
      mkCampana None (plataforma r) (tipo_campana r) (audiencia_objetivo r)
        (presupuesto_diario r) (impresiones r) (clicks r) (conversiones r)
        (costo_total r) (revenue_generado r) (ctr r) (conversion_rate r)
        (cpc r) (cpa r) (roas r)
  | Col_plataforma =>
      mkCampana (campana_id r) None (tipo_campana r) (audiencia_objetivo r)
        (presupuesto_diario r) (impresiones r) (clicks r) (conversiones r)
        (costo_total r) (revenue_generado r) (ctr r) (conversion_rate r)
        (cpc r) (cpa r) (roas r)
  | Col_tipo_campana =>
      mkCampana (campana_id r) (plataforma r) None (audiencia_objetivo r)
        (presupuesto_diario r) (impresiones r) (clicks r) (conversiones r)
        (costo_total r) (revenue_generado r) (ctr r) (conversion_rate r)
        (cpc r) (cpa r) (roas r)
  | Col_audiencia_objetivo =>
      mkCampana (campana_id r) (plataforma r) (tipo_campana r) None
        (presupuesto_diario r) (impresiones r) (clicks r) (conversiones r)
        (costo_total r) (revenue_generado r) (ctr r) (conversion_rate r)
        (cpc r) (cpa r) (roas r)
  | Col_presupuesto_diario =>
      mkCampana (campana_id r) (plataforma r) (tipo_campana r)
        (audiencia_objetivo r)
        None (impresiones r) (clicks r) (conversiones r)
        (costo_total r) (revenue_generado r) (ctr r) (conversion_rate r)
        (cpc r) (cpa r) (roas r)
  | Col_impresiones =>
      mkCampana (campana_id r) (plataforma r) (tipo_campana r)
        (audiencia_objetivo r)
        (presupuesto_diario r) None (clicks r) (conversiones r)
        (costo_total r) (revenue_generado r) (ctr r) (conversion_rate r)
        (cpc r) (cpa r) (roas r)
  | Col_clicks =>
      mkCampana (campana_id r) (plataforma r) (tipo_campana r)
        (audiencia_objetivo r)
        (presupuesto_diario r) (impresiones r) None (conversiones r)
        (costo_total r) (revenue_generado r) (ctr r) (conversion_rate r)
        (cpc r) (cpa r) (roas r)
  | Col_conversiones =>
      mkCampana (campana_id r) (plataforma r) (tipo_campana r)
        (audiencia_objetivo r)
        (presupuesto_diario r) (impresiones r) (clicks r) None
        (costo_total r) (revenue_generado r) (ctr r) (conversion_rate r)
        (cpc r) (cpa r) (roas r)
  | Col_costo_total =>
      mkCampana (campana_id r) (plataforma r) (tipo_campana r)
        (audiencia_objetivo r)
        (presupuesto_diario r) (impresiones r) (clicks r) (conversiones r)
        None (revenue_generado r) (ctr r) (conversion_rate r)
        (cpc r) (cpa r) (roas r)
  | Col_revenue_generado =>
      mkCampana (campana_id r) (plataforma r) (tipo_campana r)
        (audiencia_objetivo r)
        (presupuesto_diario r) (impresiones r) (clicks r) (conversiones r)
        (costo_total r) None (ctr r) (conversion_rate r)
        (cpc r) (cpa r) (roas r)
  | Col_ctr =>
      mkCampana (campana_id r) (plataforma r) (tipo_campana r)
        (audiencia_objetivo r)
        (presupuesto_diario r) (impresiones r) (clicks r) (conversiones r)
        (costo_total r) (revenue_generado r) None (conversion_rate r)
        (cpc r) (cpa r) (roas r)
  | Col_conversion_rate =>
      mkCampana (campana_id r) (plataforma r) (tipo_campana r)
        (audiencia_objetivo r)
        (presupuesto_diario r) (impresiones r) (clicks r) (conversiones r)
        (costo_total r) (revenue_generado r) (ctr r) None
        (cpc r) (cpa r) (roas r)
  | Col_cpc =>
      mkCampana (campana_id r) (plataforma r) (tipo_campana r)
        (audiencia_objetivo r)
        (presupuesto_diario r) (impresiones r) (clicks r) (conversiones r)
        (costo_total r) (revenue_generado r) (ctr r) (conversion_rate r)
        None (cpa r) (roas r)
  | Col_cpa =>
      mkCampana (campana_id r) (plataforma r) (tipo_campana r)
        (audiencia_objetivo r)
        (presupuesto_diario r) (impresiones r) (clicks r) (conversiones r)
        (costo_total r) (revenue_generado r) (ctr r) (conversion_rate r)
        (cpc r) None (roas r)
  | Col_roas =>
      mkCampana (campana_id r) (plataforma r) (tipo_campana r)
        (audiencia_objetivo r)
        (presupuesto_diario r) (impresiones r) (clicks r) (conversiones r)
        (costo_total r) (revenue_generado r) (ctr r) (conversion_rate r)
        (cpc r) (cpa r) None
  end.



End Ref.
Import Ref.

(** What [recomendaciones] prints when the four extremes exist. *)
Definition lineas_recomendaciones (kpis : KPIs) (mp pp me pe : string)
  (df : DataFrame) : list Out :=
  [ Seccion "11. RECOMENDACIONES ESTRATEGICAS" [];
    Linea Plano "1. PLATAFORMAS:" [];
    Linea MEJOR "Mejor rendimiento"
      [CTexto (Some mp); CNumero (max (roas_medio plataforma df))];
    Linea PEOR "Peor rendimiento"
      [CTexto (Some pp); CNumero (min (roas_medio plataforma df))];
    Linea ACCION "Aumentar inversion en la mejor y revisar la peor"
      [CTexto (Some mp); CTexto (Some pp)];
    Linea Plano "2. PUBLICO OBJETIVO:" [];
    Linea MEJOR "Mejor rendimiento (anos)"
      [CTexto (Some me); CNumero (max (roas_medio audiencia_objetivo df))];
    Linea PEOR "Peor rendimiento (anos)"
      [CTexto (Some pe); CNumero (min (roas_medio audiencia_objetivo df))];
    Linea ACCION "Maximizar el mejor grupo, optimizar o pausar el peor"
      [CTexto (Some me); CTexto (Some pe)];
    Linea Plano "3. METRICAS CLAVE:" [];
    (if roas_saludable kpis
     then Linea OK msg_roas_ok [CNumero (kpi_roas kpis)]
     else Linea ALERTA msg_roas_alerta [CNumero (kpi_roas kpis)]);
    (if conversion_respetable kpis
     then Linea OK msg_conversion_ok [CNumero (kpi_conversion_rate kpis)]
     else Linea ALERTA msg_conversion_alerta
            [CNumero (kpi_conversion_rate kpis)]);
    Linea Plano "4. RENTABILIDAD:" [];
    Linea OK "Ganancia" [CNumero (kpi_ganancia_neta kpis)];
    Linea OK msg_margen [CNumero (margen kpis)] ].



(** Three campaigns, the first and the last with the same ROAS. *)
Definition df_empate : DataFrame :=
  [ fila "c1" "A" "18-24" (dec 2 1) (dec 100 1) (dec 50 1);
    fila "c2" "B" "25-34" (dec 8 1) (dec 400 1) (dec 50 1);
    fila "c3" "B" "35-44" (dec 2 1) (dec 300 1) (dec 150 1) ].

(* ================================================================== *)
(** * The data of the charts *)
(* ================================================================== *)

(** The values that [generar_graficas], [generar_metricas_kpi] and
    [generar_comparativa_campanas] compute from the frame before they
    hand them to the renderer.  The drawing itself is not modelled. *)
Module Graficas.

(** [a < b]; any comparison with NaN is [False]. *)
Definition fltb (a b : float64) : bool :=
  match a, b with
  | Fin x, Fin y => Qcltb x y
  | NInf, Fin _ | NInf, PInf | Fin _, PInf => true
  | _, _ => false
  end.




(** [generar_comparativa_campanas], chart 1: the colour of the bar of a
    campaign, ['red' if x < 2 else 'orange' if x < 5 else 'lightgreen'
    if x < 10 else 'darkgreen']. *)
Definition color_roas_campana (x : float64) : string :=
  if fltb x (Fin (of_Z 2)) then "red"
  else if fltb x (Fin (of_Z 5)) then "orange"
  else if fltb x (Fin (of_Z 10)) then "lightgreen"
  else "darkgreen".

(** The list [colors] of that chart, for the rows in the order they are
    drawn. *)
Definition colors (df_sorted : DataFrame) : list string :=
  map (fun r => color_roas_campana (de_celda (roas r))) df_sorted.

(** Equality of two labels as a hash table sees it: missing values are
    one and the same label. *)
Definition misma_etiqueta (a b : option string) : bool :=
  match a, b with
  | Some x, Some y => String.eqb x y
  | None, None => true
  | _, _ => false
  end.

Fixpoint unique_desde (vistos : list (option string))
  (s : list (option string)) : list (option string) :=
  match s with
  | [] => []
  | x :: s' =>
      if existsb (misma_etiqueta x) vistos then unique_desde vistos s'
      else x :: unique_desde (x :: vistos) s'
  end.

(** [Series.unique()]: the distinct labels in the order they first
    appear; the missing value is a label like the others. *)
Definition unique (s : list (option string)) : list (option string) :=
  unique_desde [] s.

(** The mask [df[key] == plat] at one row: a missing value equals
    nothing, not even a missing value. *)
Definition igual_a (key : Campana -> option string) (plat : option string)
  (r : Campana) : bool :=
  match key r, plat with
  | Some x, Some y => String.eqb x y
  | _, _ => false
  end.

(** [generar_comparativa_campanas], chart 2: the array [plataformas]. *)
Definition plataformas (df : DataFrame) : list (option string) :=
  unique (col plataforma df).

(** The frame [df_plat] of one round of the loop. *)
Definition df_plat (df : DataFrame) (plat : option string) : DataFrame :=
  filter (igual_a plataforma plat) df.

(** The series of the scatter chart: one per label of [plataformas],
    with the rows it draws. *)
Definition series (df : DataFrame) : list (option string * DataFrame) :=
  map (fun plat => (plat, df_plat df plat)) (plataformas df).

End Graficas.

(* ================================================================== *)
(** * Loading and the main function *)
(* ================================================================== *)

(** [analisis_general]: the lines of its loop over [df.columns]. *)
Fixpoint enumera_columnas (i : Z) (cols : list Columna) : M unit :=
  match cols with
  | [] => ret tt
  | c :: cols' =>
      print (Linea Plano "columna" [CEntero i; CTexto (Some (nombre c))]) ;;
      enumera_columnas (i + 1) cols'
  end.

Definition analisis_general (df : DataFrame) : M unit :=
  print_section "1. INFORMACION GENERAL DEL DATASET" [] ;;
  print (Linea Plano "Total de registros"
           [CEntero (Z.of_nat (List.length df))]) ;;
  print (Linea Plano "Total de columnas"
           [CEntero (Z.of_nat (List.length columns))]) ;;
  print (Linea Plano "Columnas del dataset:" []) ;;
  enumera_columnas 1 columns.

(** [main] and [load_data] over what this development does not embed
    (the closing banner of [main], three calls of [print], is one line
    of the console):
    the file system behind [pd.read_csv] ([None] is the
    [FileNotFoundError] of a path that does not exist; a file that
    exists is taken to be a well-formed table), the two listings that
    depend on the column types and on [describe], and the three
    functions that draw. *)
Section Principal.

Variable read_csv : string -> option DataFrame.
Variable CSV_FILE : string.
Variables analisis_tipos_datos analisis_estadistico : DataFrame -> M unit.
Variables generar_graficas generar_metricas_kpi : DataFrame -> KPIs -> M unit.
Variable generar_comparativa_campanas : DataFrame -> M unit.

Definition msg_cargados : string := "Datos cargados exitosamente".
Definition msg_no_encontrado : string := "No se encontro el archivo".
Definition msg_fin : string := "FIN DEL ANALISIS".

Definition load_data (filepath : string) : M (option DataFrame) :=
  match read_csv filepath with
  | Some df =>
      print (Linea OK msg_cargados [CEntero (Z.of_nat (List.length df))]) ;;
      ret (Some df)
  | None =>
      print (Linea ERROR msg_no_encontrado [CTexto (Some filepath)]) ;;
      ret None
  end.

Definition main : M unit :=
  df <- load_data CSV_FILE ;;
  match df with
  | None => ret tt
  | Some df =>
      analisis_general df ;;
      analisis_tipos_datos df ;;
      analisis_estadistico df ;;
      analisis_por_plataforma df ;;
      analisis_por_tipo_campana df ;;
      analisis_por_edad df ;;
      kpis <- indicadores_clave df ;;
      campanas_top df 3 ;;
      campanas_bottom df 3 ;;
      validacion_datos df ;;
      recomendaciones df kpis ;;
      generar_graficas df kpis ;;
      generar_metricas_kpi df kpis ;;
      generar_comparativa_campanas df ;;
      print (Linea Plano msg_fin [])
  end.

End Principal.

(* ================================================================== *)
(** * More sample data *)
(* ================================================================== *)

(** Two campaigns whose costs, 9223372036854775807 and 1, add up to
    2^63, with a total revenue of 1. *)
Definition df_costo_desborde : DataFrame :=
  [ fila "c1" "A" "18-24" (dec 2 1) (dec 1 1) (dec 9223372036854775807 1);
    fila "c2" "A" "18-24" (dec 2 1) (dec 0 1) (dec 1 1) ].

(** One campaign whose ROAS is missing. *)
Definition df_sin_roas : DataFrame :=
  [ borra Col_roas
      (fila "c1" "A" "18-24" (dec 2 1) (dec 100 1) (dec 50 1)) ].

(* ================================================================== *)
(** * Hypotheses on the data *)
(* ================================================================== *)

Module Datos.

(** No value of column [c] is negative. *)
Definition no_negativa (c : Campana -> option Qc) (df : DataFrame) : Prop :=
  Forall (fun r => match c r with
                   | Some q => (0 <= q)%Qc
                   | None => True
                   end) df.

(** The values of column [c] are all present and pairwise distinct. *)
Definition distintos (c : Campana -> option Qc) (df : DataFrame) : Prop :=
  completa c df /\ NoDup (map c df).

(** The record has a group key and a ROAS. *)
Definition con_roas (key : Campana -> option string) (r : Campana) : bool :=
  negb (falta (key r)) && negb (falta (roas r)).

(** In the series [s], [k] is the first label whose value [m] is the
    greatest: the values before it are smaller, those after it are not
    greater (NaN entries do not count). *)
Definition es_maximo (s : list (string * float64)) (k : string) (m : Qc)
  : Prop :=
  exists l1 l2,
    s = (l1 ++ (k, Fin m) :: l2)%list /\
    (forall k' v, In (k', v) l1 ->
                  v = NaN \/ exists q, v = Fin q /\ (q < m)%Qc) /\
    (forall k' v, In (k', v) l2 ->
                  v = NaN \/ exists q, v = Fin q /\ (q <= m)%Qc).

(** In the series [s], [k] is the first label whose value [m] is the
    least. *)
Definition es_minimo (s : list (string * float64)) (k : string) (m : Qc)
  : Prop :=
  exists l1 l2,
    s = (l1 ++ (k, Fin m) :: l2)%list /\
    (forall k' v, In (k', v) l1 ->
                  v = NaN \/ exists q, v = Fin q /\ (m < q)%Qc) /\
    (forall k' v, In (k', v) l2 ->
                  v = NaN \/ exists q, v = Fin q /\ (m <= q)%Qc).

End Datos.
(* ================================================================== *)
(** * Numbers: basic facts *)
(* ================================================================== *)

Lemma Qcltb_lt (x y : Qc) : Qcltb x y = true <-> (x < y)%Qc.
Proof.
  unfold Qcltb. rewrite Qclt_alt.
  destruct (x ?= y)%Qc; split; intro H; try reflexivity; discriminate.
Qed.

Lemma Qcleb_le (x y : Qc) : Qcleb x y = true <-> (x <= y)%Qc.
Proof.
  unfold Qcleb. rewrite Qcle_alt.
  destruct (x ?= y)%Qc; split; intro H; try reflexivity;
    try discriminate; try (intro; discriminate).
  exfalso; now apply H.
Qed.

Lemma Qcleb_refl (x : Qc) : Qcleb x x = true.
Proof. apply Qcleb_le, Qcle_refl. Qed.

Lemma Qcleb_total (x y : Qc) : Qcleb x y = true \/ Qcleb y x = true.
Proof.
  rewrite !Qcleb_le.
  destruct (Qclt_le_dec x y) as [H | H]; [left | right]; trivial.
  now apply Qclt_le_weak.
Qed.

Lemma Qcleb_trans (x y z : Qc) :
  Qcleb x y = true -> Qcleb y z = true -> Qcleb x z = true.
Proof. rewrite !Qcleb_le. apply Qcle_trans. Qed.

Lemma Qc_eq_bool_refl (x : Qc) : Qc_eq_bool x x = true.
Proof.
  unfold Qc_eq_bool. destruct (Qc_eq_dec x x) as [_ | N]; [reflexivity|].
  now elim N.
Qed.


Lemma of_nat_S_neq_0 (n : nat) : of_nat (S n) <> 0%Qc.
Proof.
  unfold of_nat, of_Z. intro H. apply Q2Qc_eq_iff in H.
  unfold Qeq in H. simpl in H. lia.
Qed.


(** Concrete numbers are compared through their canonical fractions. *)
Ltac qc_igual := apply Qc_is_canon; vm_compute; reflexivity.
Ltac fin_igual := vm_compute; apply (f_equal Fin); qc_igual.

(* ================================================================== *)
(** * Reductions of a column *)
(* ================================================================== *)

Lemma suma_app (xs ys : list Qc) :
  suma (xs ++ ys) = (suma xs + suma ys)%Qc.
Proof.
  induction xs as [| x xs IH]; simpl.
  - now rewrite Qcplus_0_l.
  - rewrite IH. ring.
Qed.

Lemma suma_columna_acc (c : Campana -> option Qc) (df : DataFrame) (a : Qc) :
  fold_left (fun acc r => match c r with
                          | Some q => (acc + q)%Qc
                          | None => acc
                          end) df a
  = (a + suma (dropna (col c df)))%Qc.
Proof.
  revert a. induction df as [| r df IH]; intro a; simpl.
  - now rewrite Qcplus_0_r.
  - rewrite IH. destruct (c r) as [q |]; simpl; [ring | reflexivity].
Qed.

Lemma suma_dropna (c : Campana -> option Qc) (df : DataFrame) :
  suma (dropna (col c df)) = suma_columna c df.
Proof.
  unfold suma_columna. rewrite suma_columna_acc. now rewrite Qcplus_0_l.
Qed.


Lemma sum_columna (c : Campana -> option Qc) (df : DataFrame) :
  sum (col c df) = Fin (suma_columna c df).
Proof. unfold sum. now rewrite suma_dropna. Qed.




Lemma indicadores_clave_valor (df : DataFrame) :
  valor (indicadores_clave df) =
  Devuelve {| kpi_ctr := mean (col ctr df);
              kpi_conversion_rate := mean (col conversion_rate df);
              kpi_cpc := mean (col cpc df);
              kpi_cpa := mean (col cpa df);
              kpi_roas := mean (col roas df);
              kpi_presupuesto_total := total (col presupuesto_diario df);
              kpi_costo_total := total (col costo_total df);
              kpi_revenue_total := total (col revenue_generado df);
              kpi_ganancia_neta :=
                resta_totales (col revenue_generado df) (col costo_total df)
                  (total (col revenue_generado df))
                  (total (col costo_total df)) |}.
Proof. reflexivity. Qed.

(** ** Integer columns *)

Lemma this_of_Z (z : Z) : this (of_Z z) = inject_Z z.
Proof.
  unfold of_Z, Q2Qc. cbn [this]. apply Qred_iff. simpl.
  apply Z.gcd_1_r.
Qed.

Lemma of_Z_plus (a b : Z) : of_Z (a + b) = (of_Z a + of_Z b)%Qc.
Proof.
  apply Qc_is_canon. rewrite this_of_Z. unfold Qcplus, Q2Qc. cbn [this].
  rewrite (Qred_correct (this (of_Z a) + this (of_Z b))), !this_of_Z.
  rewrite inject_Z_plus. reflexivity.
Qed.

Lemma of_Z_opp (a : Z) : of_Z (- a) = (- of_Z a)%Qc.
Proof.
  apply Qc_is_canon. rewrite this_of_Z. unfold Qcopp, Q2Qc. cbn [this].
  rewrite (Qred_correct (- this (of_Z a))), this_of_Z.
  rewrite inject_Z_opp. reflexivity.
Qed.

Lemma of_Z_minus (a b : Z) : of_Z (a - b) = (of_Z a - of_Z b)%Qc.
Proof.
  unfold Z.sub, Qcminus. now rewrite of_Z_plus, of_Z_opp.
Qed.

Lemma of_Z_le (a b : Z) : (of_Z a <= of_Z b)%Qc <-> (a <= b)%Z.
Proof. unfold Qcle. rewrite !this_of_Z, <- Zle_Qle. reflexivity. Qed.

Lemma of_Z_lt (a b : Z) : (of_Z a < of_Z b)%Qc <-> (a < b)%Z.
Proof. unfold Qclt. rewrite !this_of_Z, <- Zlt_Qlt. reflexivity. Qed.

Lemma es_entero_of_Z (q : Qc) :
  es_entero q = true <-> exists z, q = of_Z z.
Proof.
  unfold es_entero. rewrite Pos.eqb_eq. split.
  - intro H. exists (Qnum q). apply Qc_is_canon. rewrite this_of_Z.
    destruct (this q) as [n d]. simpl in *. subst d. reflexivity.
  - intros [z ->]. rewrite this_of_Z. reflexivity.
Qed.

Lemma Qfloor_of_Z (z : Z) : Qfloor (of_Z z) = z.
Proof. rewrite this_of_Z. apply Qfloor_Z. Qed.

Lemma wrap64_en_rango (z : Z) :
  (- 2 ^ 63 <= z < 2 ^ 63)%Z -> wrap64 z = z.
Proof.
  intro H. unfold wrap64. rewrite Z.mod_small; lia.
Qed.

Lemma en_rango_of_Z (z : Z) :
  en_rango (of_Z z) <-> (- 2 ^ 63 <= z < 2 ^ 63)%Z.
Proof.
  unfold en_rango. split; intros [H1 H2]; split.
  - exact (proj1 (of_Z_le _ _) H1).
  - exact (proj1 (of_Z_lt _ _) H2).
  - exact (proj2 (of_Z_le _ _) H1).
  - exact (proj2 (of_Z_lt _ _) H2).
Qed.

Lemma envuelve_en_rango (z : Z) :
  en_rango (of_Z z) -> envuelve (of_Z z) = of_Z z.
Proof.
  intro H. unfold envuelve. rewrite Qfloor_of_Z.
  rewrite (wrap64_en_rango z (proj1 (en_rango_of_Z z) H)). reflexivity.
Qed.

(** The cells of an int64 column add up to an integer. *)
Lemma es_int64_suma (s : Series) :
  es_int64 s = true -> exists z, suma (dropna s) = of_Z z.
Proof.
  induction s as [| [q |] s IH]; simpl; intro H.
  - exists 0%Z. reflexivity.
  - apply andb_true_iff in H. destruct H as (Hq & Hs).
    apply andb_true_iff in Hq. destruct Hq as (Hq & _).
    apply es_entero_of_Z in Hq. destruct Hq as (a & ->).
    destruct (IH Hs) as (b & ->). exists (a + b)%Z.
    now rewrite of_Z_plus.
  - discriminate.
Qed.

(** A total that fits is the exact sum of the column, whatever its
    dtype. *)
Lemma total_en_rango (c : Campana -> option Qc) (df : DataFrame) :
  en_rango (suma_columna c df) ->
  total (col c df) = Fin (suma_columna c df).
Proof.
  intro H. unfold total. destruct (es_int64 (col c df)) eqn:E.
  - destruct (es_int64_suma _ E) as (z & Hz).
    rewrite <- suma_dropna in H |- *. rewrite Hz in H |- *.
    rewrite (envuelve_en_rango z H). reflexivity.
  - apply sum_columna.
Qed.

Lemma resta_en_rango (sa sb : Series) (a b : Qc) :
  (es_int64 sa && es_int64 sb = true -> en_rango (a - b)%Qc) ->
  (es_int64 sa = true -> exists z, a = of_Z z) ->
  (es_int64 sb = true -> exists z, b = of_Z z) ->
  resta_totales sa sb (Fin a) (Fin b) = Fin (a - b)%Qc.
Proof.
  intros Hr Ha Hb. unfold resta_totales.
  destruct (es_int64 sa) eqn:Ea, (es_int64 sb) eqn:Eb; try reflexivity.
  simpl. destruct (Ha eq_refl) as (x & ->). destruct (Hb eq_refl) as (y & ->).
  rewrite !Qfloor_of_Z. f_equal.
  specialize (Hr eq_refl). rewrite <- of_Z_minus in Hr |- *.
  rewrite (wrap64_en_rango _ (proj1 (en_rango_of_Z _) Hr)). reflexivity.
Qed.

(* ================================================================== *)
(** * KPIs *)
(* ================================================================== *)




(** C3, as stated, fails: on a frame without rows nothing is raised. *)
Lemma frame_vacio_no_lanza :
  (~ exists e, valor (indicadores_clave []) = Lanza e) /\
  exists k, valor (indicadores_clave []) = Devuelve k.
Proof.
  split.
  - intros [e H]. rewrite indicadores_clave_valor in H. discriminate.
  - eexists. apply indicadores_clave_valor.
Qed.

(** C3 (amended): on a dataset with zero records [indicadores_clave]
    does not fail; it returns a KPI record whose five means are NaN and
    whose three totals and net profit are 0. *)
Theorem indicadores_clave_vacio :
  valor (indicadores_clave []) =
  Devuelve {| kpi_ctr := NaN; kpi_conversion_rate := NaN; kpi_cpc := NaN;
              kpi_cpa := NaN; kpi_roas := NaN;
              kpi_presupuesto_total := Fin 0%Qc;
              kpi_costo_total := Fin 0%Qc;
              kpi_revenue_total := Fin 0%Qc;
              kpi_ganancia_neta := Fin 0%Qc |}.
Proof.
  rewrite indicadores_clave_valor. reflexivity.
Qed.



(* ================================================================== *)
(** * Recommendations *)
(* ================================================================== *)

Lemma recomendaciones_devuelve (df : DataFrame) (kpis : KPIs) :
  valor (recomendaciones df kpis) = Devuelve tt ->
  exists mp pp me pe,
    idxmax (roas_medio plataforma df) = Some mp /\
    idxmin (roas_medio plataforma df) = Some pp /\
    idxmax (roas_medio audiencia_objetivo df) = Some me /\
    idxmin (roas_medio audiencia_objetivo df) = Some pe /\
    salida (recomendaciones df kpis) =
    lineas_recomendaciones kpis mp pp me pe df.
Proof.
  unfold valor, salida, recomendaciones, lineas_recomendaciones.
  unfold bind, print_section, print, o_raise, ret, raise.
  destruct (idxmax (roas_medio plataforma df)) as [mp |]; [|discriminate].
  destruct (idxmin (roas_medio plataforma df)) as [pp |]; [|discriminate].
  destruct (idxmax (roas_medio audiencia_objetivo df)) as [me |];
    [|discriminate].
  destruct (idxmin (roas_medio audiencia_objetivo df)) as [pe |];
    [|discriminate].
  intros _. exists mp, pp, me, pe. repeat (split; [reflexivity|]).
  destruct (roas_saludable kpis), (conversion_respetable kpis); reflexivity.
Qed.

(** On a frame without rows there is no group to take an extreme of:
    [idxmax] raises before anything but the heading is printed. *)
Lemma recomendaciones_sin_filas (kpis : KPIs) :
  valor (recomendaciones [] kpis) = Lanza ValueError.
Proof. reflexivity. Qed.


Lemma Qclt_irrefl (x : Qc) : ~ (x < x)%Qc.
Proof. intro H. apply Qclt_not_eq in H. now apply H. Qed.










(** The scenario of the specification, in full: the mean ROAS is 5, the
    best platform is B and the worst is A. *)
Example escenario_AB :
  exists k, valor (indicadores_clave df_AB) = Devuelve k /\
            kpi_roas k = Fin (of_Z 5) /\
            idxmax (roas_medio plataforma df_AB) = Some "B" /\
            idxmin (roas_medio plataforma df_AB) = Some "A" /\
            roas_saludable k = false.
Proof.
  eexists. split; [apply indicadores_clave_valor|].
  split; [fin_igual|]. repeat split.
Qed.

Lemma of_Z_100_pos : (of_Z 100 ?= 0)%Qc = Gt.
Proof. reflexivity. Qed.

Lemma margen_fin (kpis : KPIs) (g r : Qc) :
  kpi_ganancia_neta kpis = Fin g ->
  kpi_revenue_total kpis = Fin r ->
  margen kpis =
  match (r ?= 0)%Qc with
  | Eq => match (g ?= 0)%Qc with
          | Eq => NaN
          | Gt => PInf
          | Lt => NInf
          end
  | _ => Fin (g / r * of_Z 100)%Qc
  end.
Proof.
  intros Hg Hr. unfold margen. rewrite Hg, Hr. unfold fdiv.
  destruct (r ?= 0)%Qc; try reflexivity.
  destruct (g ?= 0)%Qc; reflexivity.
Qed.

(** C4, as stated, fails for a zero revenue: the quotient is not marked
    as undefined.  One campaign that cost 50 and earned nothing gives
    revenue_total = 0 and ganancia_neta = -50; [recomendaciones] returns
    normally and prints the margin -inf on its [OK] line. *)
Lemma margen_sin_revenue_no_indefinido :
  exists k,
    valor (indicadores_clave df_sin_revenue) = Devuelve k /\
    kpi_revenue_total k = Fin 0%Qc /\
    margen k = NInf /\
    margen k <> NaN /\
    valor (recomendaciones df_sin_revenue k) = Devuelve tt /\
    In (Linea OK msg_margen [CNumero NInf])
       (salida (recomendaciones df_sin_revenue k)).
Proof.
  eexists. split; [apply indicadores_clave_valor|].
  assert (Hm : forall k, margen k = NInf -> margen k <> NaN)
    by (intros k -> ; discriminate).
  split; [fin_igual|].
  split; [vm_compute; reflexivity|].
  split; [apply Hm; vm_compute; reflexivity|].
  split; [vm_compute; reflexivity|].
  vm_compute. do 14 right. left. reflexivity.
Qed.

(** C4 (amended): with finite net profit [g] and revenue [r], the margin
    of [recomendaciones] is [g / r * 100] when [r] is not 0; when [r] is 0
    nothing is raised and nothing is marked as undefined: the margin is
    the quotient of the division, NaN for [g = 0], +inf for [g > 0] and
    -inf for [g < 0].  In both cases, when [recomendaciones] returns, its
    last line is the [OK] margin line with that value. *)
Theorem margen_de_ganancia (df : DataFrame) (kpis : KPIs) (g r : Qc) :
  kpi_ganancia_neta kpis = Fin g ->
  kpi_revenue_total kpis = Fin r ->
  (r <> 0%Qc -> margen kpis = Fin (g / r * of_Z 100)%Qc) /\
  (r = 0%Qc ->
   margen kpis = match (g ?= 0)%Qc with
                 | Eq => NaN
                 | Gt => PInf
                 | Lt => NInf
                 end) /\
  (valor (recomendaciones df kpis) = Devuelve tt ->
   last (salida (recomendaciones df kpis)) (Seccion "" []) =
   Linea OK msg_margen [CNumero (margen kpis)]).
Proof.
  intros Hg Hr. pose proof (margen_fin kpis g r Hg Hr) as Hm.
  split; [|split].
  - intro Hne. rewrite Hm.
    destruct (r ?= 0)%Qc eqn:E; try reflexivity.
    apply Qceq_alt in E. contradiction.
  - intros ->. rewrite Hm. reflexivity.
  - intro Hv.
    destruct (recomendaciones_devuelve df kpis Hv)
      as (mp & pp & me & pe & _ & _ & _ & _ & Hout).
    rewrite Hout. reflexivity.
Qed.

(** The margin example of the specification: revenue 1000 and cost 600
    give a net profit of 400 and a margin of 40. *)
Lemma margen_1000_600 :
  kpi_ganancia_neta (kpis_de (dec 1000 1) (dec 600 1)) = Fin (dec 400 1) /\
  kpi_revenue_total (kpis_de (dec 1000 1) (dec 600 1)) = Fin (dec 1000 1) /\
  margen (kpis_de (dec 1000 1) (dec 600 1)) = Fin (dec 40 1) /\
  last (salida (recomendaciones df_AB (kpis_de (dec 1000 1) (dec 600 1))))
       (Seccion "" [])
  = Linea OK msg_margen [CNumero (margen (kpis_de (dec 1000 1) (dec 600 1)))].
Proof.
  assert (Hg : kpi_ganancia_neta (kpis_de (dec 1000 1) (dec 600 1))
               = Fin (dec 400 1)) by fin_igual.
  assert (Hr : kpi_revenue_total (kpis_de (dec 1000 1) (dec 600 1))
               = Fin (dec 1000 1)) by reflexivity.
  destruct (margen_de_ganancia df_AB _ _ _ Hg Hr) as (H1 & _ & H3).
  split; [exact Hg|]. split; [exact Hr|]. split.
  - rewrite H1.
    + apply (f_equal Fin). apply Qc_is_canon. vm_compute. reflexivity.
    + intro H. apply (f_equal this) in H. vm_compute in H. discriminate.
  - apply H3. vm_compute. reflexivity.
Defined.

(* ================================================================== *)
(** * Groups *)
(* ================================================================== *)

Lemma compare_lt_trans (a b c : string) :
  String.compare a b = Lt -> String.compare b c = Lt ->
  String.compare a c = Lt.
Proof.
  intros H1 H2.
  apply String_as_OT.cmp_lt in H1. apply String_as_OT.cmp_lt in H2.
  apply String_as_OT.cmp_lt. eapply String_as_OT.lt_trans; eassumption.
Qed.

Lemma compare_gt_lt (a b : string) :
  String.compare a b = Gt -> String.compare b a = Lt.
Proof. intro H. rewrite String.compare_antisym, H. reflexivity. Qed.

Lemma compare_refl (a : string) : String.compare a a = Eq.
Proof. now apply String_as_OT.cmp_eq. Qed.

Lemma In_inserta_clave (k k' : string) (ks : list string) :
  In k' (inserta_clave k ks) <-> k' = k \/ In k' ks.
Proof.
  induction ks as [| x ks IH]; simpl.
  - intuition.
  - destruct (String.compare k x) eqn:E; simpl.
    + apply String.compare_eq_iff in E. subst x. intuition.
    + intuition.
    + rewrite IH. intuition.
Qed.

Lemma ascendente_inserta_clave (k : string) (ks : list string) :
  ascendente ks -> ascendente (inserta_clave k ks).
Proof.
  unfold ascendente.
  induction 1 as [| x ks Hs IH Hx]; simpl.
  - repeat constructor.
  - destruct (String.compare k x) eqn:E.
    + now constructor.
    + constructor; [now constructor|].
      constructor; [exact E|].
      rewrite Forall_forall in *. intros y Hy.
      apply compare_lt_trans with x; auto.
    + constructor; [exact IH|].
      rewrite Forall_forall in *. intros y Hy.
      apply In_inserta_clave in Hy. destruct Hy as [-> | Hy]; auto.
      now apply compare_gt_lt.
Qed.

Lemma ascendente_claves (s : list (option string)) : ascendente (claves s).
Proof.
  unfold claves. induction (dropna s) as [| k l IH]; simpl.
  - constructor.
  - now apply ascendente_inserta_clave.
Qed.

Lemma In_dropna {A : Type} (x : A) (s : list (option A)) :
  In x (dropna s) <-> In (Some x) s.
Proof.
  induction s as [| [y |] s IH]; simpl.
  - tauto.
  - rewrite IH. split; intros [H | H]; auto; left; congruence.
  - rewrite IH. split; [auto | intros [H | H]; [discriminate | auto]].
Qed.

Lemma In_claves (k : string) (s : list (option string)) :
  In k (claves s) <-> In (Some k) s.
Proof.
  rewrite <- In_dropna. unfold claves.
  induction (dropna s) as [| x l IH]; simpl.
  - tauto.
  - rewrite In_inserta_clave, IH. intuition.
Qed.

Lemma ascendente_NoDup (ks : list string) : ascendente ks -> NoDup ks.
Proof.
  induction 1 as [| x ks Hs IH Hx]; constructor; auto.
  intro Hin. rewrite Forall_forall in Hx. specialize (Hx x Hin).
  rewrite compare_refl in Hx. discriminate.
Qed.

Lemma indice_agg (spec : list Agg) (groups : list (string * DataFrame)) :
  indice (round (agg spec groups)) = map fst groups.
Proof.
  unfold indice, round, agg. rewrite !map_map. reflexivity.
Qed.

Lemma indice_groupby (spec : list Agg) (key : Campana -> option string)
  (df : DataFrame) :
  indice (round (agg spec (groupby key df))) = claves (col key df).
Proof.
  rewrite indice_agg. unfold groupby. rewrite map_map. simpl.
  apply map_id.
Qed.

Lemma grupos_ordenados (spec : list Agg) (key : Campana -> option string)
  (df : DataFrame) :
  ascendente (indice (round (agg spec (groupby key df)))) /\
  forall k, In k (indice (round (agg spec (groupby key df))))
            <-> exists r, In r df /\ key r = Some k.
Proof.
  rewrite indice_groupby. split; [apply ascendente_claves|].
  intro k. rewrite In_claves. unfold col. rewrite in_map_iff.
  split; intros (r & H1 & H2); exists r; auto.
Qed.

(** C2, as stated, fails: [groupby] sorts the group keys.  With platform B
    in the first row and A in the second, the table lists A before B. *)
Lemma plataformas_no_en_orden_de_aparicion :
  orden_de_aparicion plataforma df_BA = ["B"; "A"] /\
  indice (plataformas df_BA) = ["A"; "B"] /\
  indice (plataformas df_BA) <> orden_de_aparicion plataforma df_BA.
Proof.
  split; [reflexivity|]. split; [reflexivity|].
  intro H. vm_compute in H. discriminate.
Qed.

(** C2 (amended): for every dataset, the tables of
    [analisis_por_plataforma], [analisis_por_tipo_campana] and
    [analisis_por_edad] list their groups in strictly ascending order of
    the key value, one group for each key value that occurs in the
    dataset. *)
Theorem grupos_en_orden_ascendente (df : DataFrame) :
  (ascendente (indice (plataformas df)) /\
   forall k, In k (indice (plataformas df))
             <-> exists r, In r df /\ plataforma r = Some k) /\
  (ascendente (indice (tipos df)) /\
   forall k, In k (indice (tipos df))
             <-> exists r, In r df /\ tipo_campana r = Some k) /\
  (ascendente (indice (edades df)) /\
   forall k, In k (indice (edades df))
             <-> exists r, In r df /\ audiencia_objetivo r = Some k).
Proof.
  repeat split; try apply grupos_ordenados.
  all: try (apply ascendente_claves).
Qed.

(* ================================================================== *)
(** * Conservation of sums over the groups *)
(* ================================================================== *)









(** ** Rounding to two decimals *)



Lemma centesimal_0 : centesimal 0%Qc = true.
Proof. reflexivity. Qed.






(** ** The columns of an aggregated table *)



Lemma fsum_Fin {A : Type} (f : A -> Qc) (l : list A) :
  fsum (map (fun x => Fin (f x)) l) = Fin (suma (map f l)).
Proof.
  induction l as [| x l IH]; [reflexivity|].
  change (fadd (Fin (f x)) (fsum (map (fun y => Fin (f y)) l))
          = Fin (f x + suma (map f l))%Qc).
  rewrite IH. reflexivity.
Qed.

Lemma claves_cubren (key : Campana -> option string) (df : DataFrame) :
  forall r k, In r df -> key r = Some k -> In k (claves (col key df)).
Proof.
  intros r k Hr Hk. apply In_claves. unfold col. apply in_map_iff.
  exists r. auto.
Qed.






(* ================================================================== *)
(** * Rankings *)
(* ================================================================== *)

Section Ordena.

Context {A : Type}.
Variable le : A -> A -> bool.
Hypothesis le_total : forall a b, le a b = true \/ le b a = true.
Hypothesis le_trans :
  forall a b c, le a b = true -> le b c = true -> le a c = true.

Lemma inserta_Permutation (x : A) (l : list A) :
  Permutation (inserta le x l) (x :: l).
Proof.
  induction l as [| y l IH]; simpl.
  - apply Permutation_refl.
  - destruct (le x y).
    + apply Permutation_refl.
    + apply perm_trans with (y :: x :: l).
      * now apply perm_skip.
      * apply perm_swap.
Qed.

Lemma ordena_Permutation (l : list A) : Permutation (ordena le l) l.
Proof.
  induction l as [| x l IH]; simpl.
  - apply perm_nil.
  - apply perm_trans with (x :: ordena le l).
    + apply inserta_Permutation.
    + now apply perm_skip.
Qed.

Lemma ordena_length (l : list A) :
  List.length (ordena le l) = List.length l.
Proof. apply Permutation_length, ordena_Permutation. Qed.

Lemma inserta_sorted (x : A) (l : list A) :
  StronglySorted (fun a b => le a b = true) l ->
  StronglySorted (fun a b => le a b = true) (inserta le x l).
Proof.
  induction 1 as [| y l Hs IH Hy]; simpl.
  - repeat constructor.
  - destruct (le x y) eqn:E.
    + constructor; [now constructor|].
      constructor; [exact E|].
      rewrite Forall_forall in *. intros z Hz.
      apply le_trans with y; auto.
    + constructor; [exact IH|].
      rewrite Forall_forall in *. intros z Hz.
      apply (Permutation_in _ (inserta_Permutation x l)) in Hz.
      destruct Hz as [<- | Hz]; auto.
      destruct (le_total x y) as [H | H]; [congruence | exact H].
Qed.

Lemma ordena_sorted (l : list A) :
  StronglySorted (fun a b => le a b = true) (ordena le l).
Proof.
  induction l as [| x l IH]; simpl.
  - constructor.
  - now apply inserta_sorted.
Qed.

(** Stability: the rows of one class of equal keys keep their order. *)
Lemma filter_inserta (p : A -> bool) (x : A) (l : list A) :
  (forall a b, p a = true -> p b = true -> le a b = true) ->
  filter p (inserta le x l) = filter p (x :: l).
Proof.
  intro Hp. induction l as [| y l IH]; simpl; [reflexivity|].
  destruct (le x y) eqn:E; simpl; [reflexivity|].
  simpl in IH. rewrite IH.
  destruct (p x) eqn:Px, (p y) eqn:Py; try reflexivity.
  rewrite (Hp x y Px Py) in E. discriminate.
Qed.

Lemma filter_ordena (p : A -> bool) (l : list A) :
  (forall a b, p a = true -> p b = true -> le a b = true) ->
  filter p (ordena le l) = filter p l.
Proof.
  intro Hp. induction l as [| x l IH]; simpl; [reflexivity|].
  rewrite (filter_inserta p x (ordena le l) Hp). simpl. now rewrite IH.
Qed.

End Ordena.

Lemma desc_total (c : Campana -> option Qc) (a b : Campana) :
  desc (c a) (c b) = true \/ desc (c b) (c a) = true.
Proof.
  destruct (c a) as [x |], (c b) as [y |]; simpl; auto.
  destruct (Qcleb_total x y); auto.
Qed.

Lemma desc_trans (c : Campana -> option Qc) (a b d : Campana) :
  desc (c a) (c b) = true -> desc (c b) (c d) = true ->
  desc (c a) (c d) = true.
Proof.
  destruct (c a) as [x |], (c b) as [y |], (c d) as [z |]; simpl; auto;
    try discriminate.
  intros H1 H2. now apply Qcleb_trans with y.
Qed.

Lemma asc_total (c : Campana -> option Qc) (a b : Campana) :
  asc (c a) (c b) = true \/ asc (c b) (c a) = true.
Proof.
  destruct (c a) as [x |], (c b) as [y |]; simpl; auto.
  apply Qcleb_total.
Qed.

Lemma asc_trans (c : Campana -> option Qc) (a b d : Campana) :
  asc (c a) (c b) = true -> asc (c b) (c d) = true ->
  asc (c a) (c d) = true.
Proof.
  destruct (c a) as [x |], (c b) as [y |], (c d) as [z |]; simpl; auto;
    try discriminate.
  apply Qcleb_trans.
Qed.

Lemma igual_desc (c : Campana -> option Qc) (v : option Qc) (a b : Campana) :
  igual c v a = true -> igual c v b = true -> desc (c a) (c b) = true.
Proof.
  unfold igual. destruct (c a) as [x |], (c b) as [y |], v as [z |];
    simpl; try discriminate; auto.
  intros H1 H2. apply Qc_eq_bool_correct in H1, H2. subst.
  apply Qcleb_refl.
Qed.

Lemma igual_asc (c : Campana -> option Qc) (v : option Qc) (a b : Campana) :
  igual c v a = true -> igual c v b = true -> asc (c a) (c b) = true.
Proof.
  unfold igual. destruct (c a) as [x |], (c b) as [y |], v as [z |];
    simpl; try discriminate; auto.
  intros H1 H2. apply Qc_eq_bool_correct in H1, H2. subst.
  apply Qcleb_refl.
Qed.

Lemma desc_valores (x y : Qc) : desc (Some x) (Some y) = true <-> (y <= x)%Qc.
Proof. apply Qcleb_le. Qed.

Lemma asc_valores (x y : Qc) : asc (Some x) (Some y) = true <-> (x <= y)%Qc.
Proof. apply Qcleb_le. Qed.

Lemma head_length {A : Type} (n : Z) (l : list A) :
  List.length (head n l) = Z.to_nat (Z.min n (Z.of_nat (List.length l))).
Proof. unfold head. rewrite length_firstn. lia. Qed.

Lemma head_nada {A : Type} (n : Z) (l : list A) :
  (n <= 0)%Z -> head n l = [].
Proof.
  intro H. unfold head. replace (Z.to_nat n) with 0%nat by lia. reflexivity.
Qed.

(** What the two listings do with the console: on a frame with rows
    they print the heading and the table and return; on a frame without
    rows the check of the dtype raises after the heading. *)
Lemma campanas_top_devuelve (df : DataFrame) (n : Z) (c0 : Consola) :
  df <> [] ->
  campanas_top df n c0
  = (Devuelve tt,
     (c0 ++ [Seccion "8. TOP n CAMPANAS POR ROAS" [CEntero n]]
         ++ [Cuadro cabecera_seleccion (top df n)])%list).
Proof.
  intro H. destruct df; [now elim H|].
  unfold campanas_top, print_section, comprueba_dtype, bind, print, ret.
  cbn [sin_tipo]. now rewrite <- app_assoc.
Qed.

Lemma campanas_bottom_devuelve (df : DataFrame) (n : Z) (c0 : Consola) :
  df <> [] ->
  campanas_bottom df n c0
  = (Devuelve tt,
     (c0 ++ [Seccion "9. BOTTOM n CAMPANAS POR ROAS" [CEntero n]]
         ++ [Cuadro cabecera_seleccion (bottom df n)])%list).
Proof.
  intro H. destruct df; [now elim H|].
  unfold campanas_bottom, print_section, comprueba_dtype, bind, print, ret.
  cbn [sin_tipo]. now rewrite <- app_assoc.
Qed.

Lemma campanas_top_lanza (n : Z) (c0 : Consola) :
  campanas_top [] n c0
  = (Lanza TypeError,
     (c0 ++ [Seccion "8. TOP n CAMPANAS POR ROAS" [CEntero n]])%list).
Proof. reflexivity. Qed.

Lemma campanas_bottom_lanza (n : Z) (c0 : Consola) :
  campanas_bottom [] n c0
  = (Lanza TypeError,
     (c0 ++ [Seccion "9. BOTTOM n CAMPANAS POR ROAS" [CEntero n]])%list).
Proof. reflexivity. Qed.

Lemma nlargest_orden (n : Z) (c : Campana -> option Qc) (df : DataFrame) :
  exists orden,
    Permutation orden df /\
    StronglySorted (fun a b => desc (c a) (c b) = true) orden /\
    (forall v, filter (igual c v) orden = filter (igual c v) df) /\
    nlargest n c df = firstn (Z.to_nat n) orden.
Proof.
  exists (ordena (fun a b => desc (c a) (c b)) df).
  split; [apply ordena_Permutation|].
  split; [apply ordena_sorted;
          [intros; apply desc_total | intros ? ? ?; apply desc_trans]|].
  split; [|reflexivity].
  intro v. apply filter_ordena. apply igual_desc.
Qed.

Lemma nsmallest_orden (n : Z) (c : Campana -> option Qc) (df : DataFrame) :
  exists orden,
    Permutation orden df /\
    StronglySorted (fun a b => asc (c a) (c b) = true) orden /\
    (forall v, filter (igual c v) orden = filter (igual c v) df) /\
    nsmallest n c df = firstn (Z.to_nat n) orden.
Proof.
  exists (ordena (fun a b => asc (c a) (c b)) df).
  split; [apply ordena_Permutation|].
  split; [apply ordena_sorted;
          [intros; apply asc_total | intros ? ? ?; apply asc_trans]|].
  split; [|reflexivity].
  intro v. apply filter_ordena. apply igual_asc.
Qed.

(** C5, as stated, fails on a dataset without rows: the columns of a
    file that has only the header line have dtype object, and [nlargest]
    and [nsmallest] refuse such a column before they look at [n].  The
    listings raise TypeError after their heading, also for [n <= 0],
    where the claim has an empty sequence of length min(n, 0) = 0. *)
Lemma ranking_sin_filas_lanza :
  Z.to_nat (Z.min 3 (Z.of_nat (List.length (@nil Campana)))) = 0%nat /\
  valor (campanas_top [] 3) = Lanza TypeError /\
  valor (campanas_bottom [] 3) = Lanza TypeError /\
  valor (campanas_top [] 0) = Lanza TypeError /\
  valor (campanas_bottom [] 0) = Lanza TypeError /\
  salida (campanas_top [] 0)
  = [Seccion "8. TOP n CAMPANAS POR ROAS" [CEntero 0]] /\
  ~ (exists t, salida (campanas_top [] 0)
               = [Seccion "8. TOP n CAMPANAS POR ROAS" [CEntero 0]; t]).
Proof.
  repeat split; try reflexivity.
  intros [t H]. discriminate H.
Qed.

(** C5 (amended): for every dataset with at least one record and every
    [n], [campanas_top] ([campanas_bottom]) returns and prints, after its
    heading, the table of the first [n] rows of the dataset put in
    descending (ascending) order of roas, rows without a value last,
    where rows with equal values keep the order they have in the dataset:
    min(n, len(dataset)) rows, none for [n <= 0].  [nlargest] and
    [nsmallest] select so for every numeric column.  On a dataset
    without records both listings raise TypeError after the heading,
    whatever [n] is. *)
Theorem campanas_top_bottom (df : DataFrame) (c : Campana -> option Qc)
  (n : Z) :
  (df <> [] ->
   (List.length (nlargest n c df)
    = Z.to_nat (Z.min n (Z.of_nat (List.length df))) /\
    exists orden,
      Permutation orden df /\
      StronglySorted (fun a b => desc (c a) (c b) = true) orden /\
      (forall v, filter (igual c v) orden = filter (igual c v) df) /\
      nlargest n c df = firstn (Z.to_nat n) orden) /\
   (List.length (nsmallest n c df)
    = Z.to_nat (Z.min n (Z.of_nat (List.length df))) /\
    exists orden,
      Permutation orden df /\
      StronglySorted (fun a b => asc (c a) (c b) = true) orden /\
      (forall v, filter (igual c v) orden = filter (igual c v) df) /\
      nsmallest n c df = firstn (Z.to_nat n) orden) /\
   ((n <= 0)%Z -> nlargest n c df = [] /\ nsmallest n c df = []) /\
   (exists orden,
      Permutation orden df /\
      StronglySorted (fun a b => desc (roas a) (roas b) = true) orden /\
      (forall v, filter (igual roas v) orden = filter (igual roas v) df) /\
      valor (campanas_top df n) = Devuelve tt /\
      salida (campanas_top df n)
      = [ Seccion "8. TOP n CAMPANAS POR ROAS" [CEntero n];
          Cuadro cabecera_seleccion
            (map seleccion (firstn (Z.to_nat n) orden)) ] /\
      List.length (map seleccion (firstn (Z.to_nat n) orden))
      = Z.to_nat (Z.min n (Z.of_nat (List.length df)))) /\
   (exists orden,
      Permutation orden df /\
      StronglySorted (fun a b => asc (roas a) (roas b) = true) orden /\
      (forall v, filter (igual roas v) orden = filter (igual roas v) df) /\
      valor (campanas_bottom df n) = Devuelve tt /\
      salida (campanas_bottom df n)
      = [ Seccion "9. BOTTOM n CAMPANAS POR ROAS" [CEntero n];
          Cuadro cabecera_seleccion
            (map seleccion (firstn (Z.to_nat n) orden)) ] /\
      List.length (map seleccion (firstn (Z.to_nat n) orden))
      = Z.to_nat (Z.min n (Z.of_nat (List.length df)))) /\
   ((n <= 0)%Z ->
    salida (campanas_top df n)
    = [ Seccion "8. TOP n CAMPANAS POR ROAS" [CEntero n];
        Cuadro cabecera_seleccion [] ] /\
    salida (campanas_bottom df n)
    = [ Seccion "9. BOTTOM n CAMPANAS POR ROAS" [CEntero n];
        Cuadro cabecera_seleccion [] ])) /\
  (df = [] ->
   valor (campanas_top df n) = Lanza TypeError /\
   salida (campanas_top df n)
   = [Seccion "8. TOP n CAMPANAS POR ROAS" [CEntero n]] /\
   valor (campanas_bottom df n) = Lanza TypeError /\
   salida (campanas_bottom df n)
   = [Seccion "9. BOTTOM n CAMPANAS POR ROAS" [CEntero n]]).
Proof.
  split; [|intros ->; repeat split].
  intro Hne.
  split; [|split; [|split; [|split; [|split]]]].
  - split; [|apply nlargest_orden].
    unfold nlargest. rewrite head_length, ordena_length. reflexivity.
  - split; [|apply nsmallest_orden].
    unfold nsmallest. rewrite head_length, ordena_length. reflexivity.
  - intro H. unfold nlargest, nsmallest. now rewrite !head_nada.
  - unfold valor, salida. rewrite (campanas_top_devuelve df n [] Hne).
    cbn [fst snd app]. unfold top.
    destruct (nlargest_orden n roas df) as (o & Hp & Hs & Hf & Ho).
    exists o. rewrite <- Ho. repeat split; try assumption.
    unfold nlargest. rewrite length_map, head_length, ordena_length.
    reflexivity.
  - unfold valor, salida. rewrite (campanas_bottom_devuelve df n [] Hne).
    cbn [fst snd app]. unfold bottom.
    destruct (nsmallest_orden n roas df) as (o & Hp & Hs & Hf & Ho).
    exists o. rewrite <- Ho. repeat split; try assumption.
    unfold nsmallest. rewrite length_map, head_length, ordena_length.
    reflexivity.
  - intro H. unfold valor, salida.
    rewrite (campanas_top_devuelve df n [] Hne),
            (campanas_bottom_devuelve df n [] Hne).
    cbn [fst snd app]. unfold top, bottom, nlargest, nsmallest.
    rewrite !head_nada by assumption. split; reflexivity.
Qed.

(** With two campaigns of ROAS 2 and one of ROAS 8, the two worst are the
    two of ROAS 2 in file order, and the best two are the one of ROAS 8
    and the first of ROAS 2; both listings return, and neither does once
    the rows are taken away. *)
Lemma ranking_df_empate :
  map campana_id (nlargest 2 roas df_empate) = [Some "c2"; Some "c1"] /\
  map campana_id (nsmallest 2 roas df_empate) = [Some "c1"; Some "c3"] /\
  nlargest 0 roas df_empate = [] /\
  nsmallest (-1) roas df_empate = [] /\
  valor (campanas_top df_empate 2) = Devuelve tt /\
  valor (campanas_bottom df_empate 2) = Devuelve tt /\
  salida (campanas_top df_empate 0)
  = [ Seccion "8. TOP n CAMPANAS POR ROAS" [CEntero 0];
      Cuadro cabecera_seleccion [] ] /\
  valor (campanas_top [] 2) = Lanza TypeError.
Proof.
  assert (Hne : df_empate <> []) by discriminate.
  split; [reflexivity|]. split; [reflexivity|].
  pose proof (proj1 (campanas_top_bottom df_empate roas 0) Hne)
    as (_ & _ & H0 & _ & _ & Hs0).
  pose proof (proj1 (campanas_top_bottom df_empate roas (-1)) Hne)
    as (_ & _ & H1 & _).
  pose proof (proj1 (campanas_top_bottom df_empate roas 2) Hne)
    as (_ & _ & _ & (o1 & _ & _ & _ & Ht & _) & (o2 & _ & _ & _ & Hb & _) & _).
  pose proof (proj2 (campanas_top_bottom [] roas 2) eq_refl) as (H3 & _).
  split; [apply H0; lia|]. split; [apply H1; lia|].
  split; [exact Ht|]. split; [exact Hb|].
  split; [apply Hs0; lia|].
  exact H3.
Defined.

(* ================================================================== *)
(** * Validation *)
(* ================================================================== *)

Local Open Scope nat_scope.


Lemma In_columns (c : Columna) : In c columns.
Proof. destruct c; simpl; tauto. Qed.


Lemma total_faltantes_suma (df : DataFrame) :
  total_faltantes df = list_sum (map (fun c => faltantes_de c df) columns).
Proof.
  unfold total_faltantes, faltantes, nulos. rewrite map_map. reflexivity.
Qed.


Lemma list_sum_cero (l : list nat) :
  list_sum l = 0 <-> forall n, In n l -> n = 0.
Proof.
  induction l as [| x l IH]; simpl.
  - split; [contradiction | reflexivity].
  - split.
    + intros H n [<- | Hn]; [lia|]. apply IH; [lia | exact Hn].
    + intro H. rewrite (H x) by now left.
      apply IH. intros n Hn. apply H. now right.
Qed.

Lemma faltantes_de_cero (c : Columna) (df : DataFrame) :
  faltantes_de c df = 0 <-> forall r, In r df -> isnull c r = false.
Proof.
  unfold faltantes_de. induction df as [| x df IH]; simpl.
  - split; [contradiction | reflexivity].
  - destruct (isnull c x) eqn:E; simpl.
    + split; [discriminate|]. intro H. specialize (H x (or_introl eq_refl)).
      congruence.
    + rewrite IH. split.
      * intros H r [<- | Hr]; auto.
      * intros H r Hr. apply H. now right.
Qed.

Lemma total_faltantes_cero (df : DataFrame) :
  total_faltantes df = 0 <-> forall c r, In r df -> isnull c r = false.
Proof.
  rewrite total_faltantes_suma, list_sum_cero. split.
  - intros H c. apply faltantes_de_cero. apply H.
    apply in_map_iff. exists c. split; [reflexivity | apply In_columns].
  - intros H n Hn. apply in_map_iff in Hn. destruct Hn as (c & <- & _).
    apply faltantes_de_cero, H.
Qed.










Lemma validacion_datos_valor (df : DataFrame) :
  valor (validacion_datos df) = Devuelve (total_faltantes df).
Proof.
  unfold valor, validacion_datos, bind, print_section, print, ret.
  destruct (Nat.eqb (total_faltantes df) 0); reflexivity.
Qed.



(* ================================================================== *)
(** * Groups: partition of the records *)
(* ================================================================== *)

Lemma flat_map_igual {A B : Type} (f g : A -> list B) (l : list A) :
  (forall x, In x l -> f x = g x) -> flat_map f l = flat_map g l.
Proof.
  induction l as [| x l IH]; simpl; intro H; [reflexivity|].
  rewrite (H x) by now left. rewrite IH; [reflexivity|].
  intros y Hy. apply H. now right.
Qed.

Lemma flat_map_un_grupo {A : Type} (f : string -> list A) (k0 : string)
  (x : A) (ks : list string) :
  NoDup ks -> In k0 ks ->
  Permutation
    (flat_map (fun k => if String.eqb k0 k then x :: f k else f k) ks)
    (x :: flat_map f ks).
Proof.
  induction 1 as [| k ks Hk Hnd IH]; simpl; intro Hin; [contradiction|].
  destruct (String.eqb_spec k0 k) as [-> | N].
  - simpl. apply perm_skip, Permutation_app_head.
    rewrite (flat_map_igual
               (fun k' => if String.eqb k k' then x :: f k' else f k') f).
    + apply Permutation_refl.
    + intros k' Hk'. destruct (String.eqb_spec k k') as [-> | _];
        [contradiction | reflexivity].
  - destruct Hin as [-> | Hin]; [now elim N|].
    apply perm_trans with (f k ++ x :: flat_map f ks)%list.
    + apply Permutation_app_head, IH, Hin.
    + apply Permutation_sym, Permutation_middle.
Qed.

Lemma grupos_Permutation (key : Campana -> option string)
  (ks : list string) (df : DataFrame) :
  NoDup ks ->
  (forall r k, In r df -> key r = Some k -> In k ks) ->
  Permutation (flat_map (fun k => filter (tiene_clave key k) df) ks)
              (filter (fun r => negb (falta (key r))) df).
Proof.
  intro Hnd. induction df as [| r df IH]; intro Hks.
  - simpl. clear Hnd Hks.
    induction ks as [| k ks IHk]; simpl; [apply perm_nil | exact IHk].
  - assert (IH' := IH (fun r' k Hr' => Hks r' k (or_intror Hr'))).
    cbn [filter]. unfold tiene_clave at 1.
    destruct (key r) as [k0 |] eqn:Ek; cbn [falta negb].
    + apply perm_trans
        with (r :: flat_map (fun k => filter (tiene_clave key k) df) ks).
      * apply (flat_map_un_grupo
                 (fun k => filter (tiene_clave key k) df) k0 r ks Hnd).
        apply (Hks r k0); [now left | exact Ek].
      * now apply perm_skip.
    + exact IH'.
Qed.

Lemma concat_groupby (key : Campana -> option string) (df : DataFrame) :
  List.concat (map snd (groupby key df))
  = flat_map (fun k => filter (tiene_clave key k) df) (claves (col key df)).
Proof.
  unfold groupby. rewrite map_map. cbn [snd].
  now rewrite <- flat_map_concat_map.
Qed.

Lemma In_groupby (key : Campana -> option string) (df : DataFrame)
  (k : string) (g : DataFrame) :
  In (k, g) (groupby key df) <->
  In k (claves (col key df)) /\ g = filter (tiene_clave key k) df.
Proof.
  unfold groupby. rewrite in_map_iff. split.
  - intros (k' & E & Hk'). inversion E; subst. auto.
  - intros (Hk & ->). exists k. auto.
Qed.

Lemma tiene_clave_spec (key : Campana -> option string) (k : string)
  (r : Campana) :
  tiene_clave key k r = true <-> key r = Some k.
Proof.
  unfold tiene_clave. destruct (key r) as [k' |].
  - rewrite String.eqb_eq. split; congruence.
  - split; discriminate.
Qed.

Lemma groupby_Permutation (key : Campana -> option string)
  (df : DataFrame) :
  Permutation (List.concat (map snd (groupby key df)))
              (filter (fun r => negb (falta (key r))) df).
Proof.
  rewrite concat_groupby. apply grupos_Permutation.
  - apply ascendente_NoDup, ascendente_claves.
  - apply claves_cubren.
Qed.

(** X1: the groups of [groupby] split the records that have a key: no
    group is empty, a group holds only records of the dataset with its
    own key, no key is listed twice, and the groups together are the
    records with a key, each one once. *)
Theorem groupby_particion (key : Campana -> option string) (df : DataFrame) :
  (forall k g, In (k, g) (groupby key df) ->
               g <> [] /\ forall r, In r g -> In r df /\ key r = Some k) /\
  NoDup (map fst (groupby key df)) /\
  Permutation (List.concat (map snd (groupby key df)))
              (filter (fun r => negb (falta (key r))) df).
Proof.
  split; [|split].
  - intros k g Hg. apply In_groupby in Hg. destruct Hg as (Hk & ->). split.
    + apply In_claves in Hk. unfold col in Hk. apply in_map_iff in Hk.
      destruct Hk as (r & Er & Hr).
      assert (Hin : In r (filter (tiene_clave key k) df))
        by (apply filter_In; split; [exact Hr | now apply tiene_clave_spec]).
      intro E. rewrite E in Hin. contradiction.
    + intros r Hr. apply filter_In in Hr. destruct Hr as (Hr & Ht).
      split; [exact Hr | now apply tiene_clave_spec].
  - unfold groupby. rewrite map_map. cbn [fst]. rewrite map_id.
    apply ascendente_NoDup, ascendente_claves.
  - apply groupby_Permutation.
Qed.

Lemma grupo_A_df_AB :
  In ("A", [fila "c1" "A" "18-24" (dec 2 1) (dec 100 1) (dec 50 1)])
     (groupby plataforma df_AB) /\
  [fila "c1" "A" "18-24" (dec 2 1) (dec 100 1) (dec 50 1)] <> [] /\
  plataforma (fila "c1" "A" "18-24" (dec 2 1) (dec 100 1) (dec 50 1))
  = Some "A".
Proof.
  assert (Hin : In ("A", [fila "c1" "A" "18-24" (dec 2 1) (dec 100 1)
                            (dec 50 1)])
                   (groupby plataforma df_AB)) by (left; reflexivity).
  split; [exact Hin|].
  destruct (groupby_particion plataforma df_AB) as (H & _).
  destruct (H _ _ Hin) as (Hne & Hr). split; [exact Hne|].
  apply Hr. left. reflexivity.
Defined.

(** ** The count column *)

Lemma of_nat_plus (a b : nat) : of_nat (a + b) = (of_nat a + of_nat b)%Qc.
Proof. unfold of_nat. rewrite Nat2Z.inj_add. apply of_Z_plus. Qed.

Lemma count_filter {A : Type} (c : Campana -> option A) (df : DataFrame) :
  count (col c df) = List.length (filter (fun r => negb (falta (c r))) df).
Proof.
  unfold count, col. induction df as [| r df IH]; simpl; [reflexivity|].
  destruct (c r); simpl; now rewrite IH.
Qed.

Lemma count_app {A : Type} (c : Campana -> option A) (a b : DataFrame) :
  count (col c (a ++ b)%list) = count (col c a) + count (col c b).
Proof. rewrite !count_filter, filter_app, length_app. reflexivity. Qed.

Lemma count_concat {A : Type} (c : Campana -> option A)
  (gs : list DataFrame) :
  count (col c (List.concat gs)) = list_sum (map (fun g => count (col c g)) gs).
Proof.
  induction gs as [| g gs IH]; simpl; [reflexivity|].
  now rewrite count_app, IH.
Qed.

Lemma filter_Permutation_length {A : Type} (p : A -> bool) (l l' : list A) :
  Permutation l l' ->
  List.length (filter p l) = List.length (filter p l').
Proof.
  induction 1 as [| x l l' _ IH | x y l | l l' l'' _ IH1 _ IH2]; simpl.
  - reflexivity.
  - destruct (p x); simpl; now rewrite IH.
  - destruct (p x), (p y); reflexivity.
  - now rewrite IH1.
Qed.

Lemma fsum_of_nat {A : Type} (f : A -> nat) (l : list A) :
  fsum (map (fun x => Fin (of_Z (Z.of_nat (f x)))) l)
  = Fin (of_nat (list_sum (map f l))).
Proof.
  rewrite (fsum_Fin (fun x => of_Z (Z.of_nat (f x)))). f_equal.
  induction l as [| x l IH]; simpl; [reflexivity|].
  rewrite IH, of_nat_plus. reflexivity.
Qed.

Lemma columna_round_count (spec : list Agg) (i : nat)
  (c : Campana -> option string) (groups : list (string * DataFrame)) :
  nth_error spec i = Some (AggCount c) ->
  columna i (round (agg spec groups))
  = map (fun kg => Fin (of_Z (Z.of_nat (count (col c (snd kg)))))) groups.
Proof.
  intro H. unfold columna, round, agg. rewrite !map_map. apply map_ext.
  intros [k g]. simpl. rewrite !nth_error_map, H. reflexivity.
Qed.

(** X2: in an aggregated table, the counts of a column aggregated with
    [count] add up to the number of records that have both a group key
    and a value in that column; rounding the table does not change
    them. *)
Theorem cuenta_de_grupos (spec : list Agg) (i : nat)
  (key c : Campana -> option string) (df : DataFrame) :
  nth_error spec i = Some (AggCount c) ->
  fsum (columna i (round (agg spec (groupby key df))))
  = Fin (of_nat (List.length
                   (filter (fun r => negb (falta (c r)))
                      (filter (fun r => negb (falta (key r))) df)))).
Proof.
  intro H. rewrite (columna_round_count spec i c _ H).
  rewrite (fsum_of_nat (fun kg => count (col c (snd kg)))). do 2 f_equal.
  rewrite <- (map_map snd (fun g => count (col c g))), <- count_concat.
  rewrite count_filter. apply filter_Permutation_length.
  apply groupby_Permutation.
Qed.

Lemma campanas_contadas_df_AB :
  fsum (columna 0 (plataformas df_AB)) = Fin (of_nat 2).
Proof.
  exact (cuenta_de_grupos
           [ AggCount campana_id; AggSum presupuesto_diario;
             AggSum impresiones; AggSum clicks; AggSum conversiones;
             AggSum costo_total; AggSum revenue_generado; AggMean roas ]
           0 plataforma campana_id df_AB eq_refl).
Defined.

(* ================================================================== *)
(** * Recommendations: the extremes *)
(* ================================================================== *)

Import Datos.

Lemma mean_NaN (s : Series) : mean s = NaN <-> dropna s = [].
Proof.
  unfold mean. destruct (dropna s); split; intro H;
    try reflexivity; discriminate.
Qed.

Lemma mean_Fin_o_NaN (s : Series) : mean s = NaN \/ exists q, mean s = Fin q.
Proof. unfold mean. destruct (dropna s); eauto. Qed.

Lemma dropna_nil {A : Type} (s : list (option A)) :
  dropna s = [] <-> forall x, In x s -> x = None.
Proof.
  induction s as [| [a |] s IH]; simpl.
  - split; [contradiction | reflexivity].
  - split; [discriminate|]. intro H.
    specialize (H (Some a) (or_introl eq_refl)). discriminate.
  - rewrite IH. split.
    + intros H x [<- | Hx]; auto.
    + intros H x Hx. apply H. now right.
Qed.

Lemma In_roas_medio (key : Campana -> option string) (df : DataFrame)
  (k : string) (v : float64) :
  In (k, v) (roas_medio key df) <->
  In k (claves (col key df)) /\
  v = mean (col roas (filter (tiene_clave key k) df)).
Proof.
  unfold roas_medio, groupby. rewrite map_map. cbn [fst snd].
  rewrite in_map_iff. split.
  - intros (k' & E & Hk'). inversion E; subst. auto.
  - intros (Hk & ->). exists k. auto.
Qed.

Lemma existsb_false {A : Type} (p : A -> bool) (l : list A) :
  existsb p l = false <-> forall x, In x l -> p x = false.
Proof.
  induction l as [| a l IH]; simpl.
  - split; [contradiction | reflexivity].
  - rewrite orb_false_iff, IH. split.
    + intros [Ha H] x [<- | Hx]; auto.
    + intro H. split; [apply H; now left | intros x Hx; apply H; now right].
Qed.

Lemma con_roas_false (key : Campana -> option string) (r : Campana) :
  con_roas key r = false <-> key r = None \/ roas r = None.
Proof.
  unfold con_roas. destruct (key r), (roas r); simpl; split; intro H;
    try reflexivity; try discriminate; auto;
    destruct H; discriminate.
Qed.

(** No group has a mean exactly when no record has both a key and a
    ROAS. *)
Lemma roas_medio_sin_valor (key : Campana -> option string)
  (df : DataFrame) :
  (forall k v, In (k, v) (roas_medio key df) -> v = NaN) <->
  existsb (con_roas key) df = false.
Proof.
  rewrite existsb_false. split.
  - intros H r Hr. apply con_roas_false.
    destruct (key r) as [k |] eqn:Ek; [right | now left].
    destruct (roas r) as [q |] eqn:Eq; [exfalso | reflexivity].
    assert (Hk : In k (claves (col key df))) by (eapply claves_cubren; eauto).
    specialize (H k _ (proj2 (In_roas_medio key df k _) (conj Hk eq_refl))).
    apply mean_NaN in H. rewrite dropna_nil in H.
    assert (Hin : In (Some q) (col roas (filter (tiene_clave key k) df))).
    { unfold col. apply in_map_iff. exists r. split; [exact Eq|].
      apply filter_In. split; [exact Hr | now apply tiene_clave_spec]. }
    specialize (H _ Hin). discriminate.
  - intros H k v Hkv. apply In_roas_medio in Hkv. destruct Hkv as (_ & ->).
    apply mean_NaN, dropna_nil. intros x Hx.
    unfold col in Hx. apply in_map_iff in Hx. destruct Hx as (r & <- & Hr).
    apply filter_In in Hr. destruct Hr as (Hr & Ht).
    apply tiene_clave_spec in Ht.
    specialize (H r Hr). apply con_roas_false in H.
    destruct H as [H | H]; [congruence | exact H].
Qed.

Lemma mejor_con_acc (gt : float64 -> float64 -> bool)
  (s : list (string * float64)) (a : string * float64) :
  mejor gt s (Some a) <> None.
Proof.
  revert a. induction s as [| [k v] s IH]; intro a; simpl; [discriminate|].
  destruct a as [k0 b].
  destruct v; try (destruct (gt _ b); apply IH). apply IH.
Qed.

Lemma mejor_None (gt : float64 -> float64 -> bool)
  (s : list (string * float64)) :
  mejor gt s None = None <-> forall k v, In (k, v) s -> v = NaN.
Proof.
  induction s as [| [k v] s IH]; simpl.
  - split; [contradiction | reflexivity].
  - destruct v.
    1-3: split; [intro H; now apply mejor_con_acc in H|];
         intro H; specialize (H k _ (or_introl eq_refl)); discriminate.
    rewrite IH. split.
    + intros H k' v' [E | Hin]; [now inversion E | eauto].
    + intros H k' v' Hin. apply (H k'). now right.
Qed.

Lemma idxmax_None (key : Campana -> option string) (df : DataFrame) :
  idxmax (roas_medio key df) = None <-> existsb (con_roas key) df = false.
Proof.
  rewrite <- roas_medio_sin_valor, <- (mejor_None fgtb). unfold idxmax.
  destruct (mejor fgtb (roas_medio key df) None); simpl;
    split; intro H; try reflexivity; discriminate.
Qed.

Lemma idxmin_None (key : Campana -> option string) (df : DataFrame) :
  idxmin (roas_medio key df) = None <-> existsb (con_roas key) df = false.
Proof.
  rewrite <- roas_medio_sin_valor, <- (mejor_None (fun a b => fgtb b a)).
  unfold idxmin.
  destruct (mejor (fun a b => fgtb b a) (roas_medio key df) None); simpl;
    split; intro H; try reflexivity; discriminate.
Qed.

(** X3: [recomendaciones] returns exactly when some record has a
    platform and a ROAS and some record has an audience and a ROAS.
    Otherwise (an empty dataset, for one) it raises [ValueError] after
    the heading, before any recommendation is printed. *)
Theorem recomendaciones_cuando_falla (df : DataFrame) (kpis : KPIs) :
  valor (recomendaciones df kpis)
  = (if existsb (con_roas plataforma) df
        && existsb (con_roas audiencia_objetivo) df
     then Devuelve tt else Lanza ValueError) /\
  (valor (recomendaciones df kpis) = Lanza ValueError ->
   salida (recomendaciones df kpis)
   = [Seccion "11. RECOMENDACIONES ESTRATEGICAS" []]).
Proof.
  pose proof (idxmax_None plataforma df) as P1.
  pose proof (idxmin_None plataforma df) as P2.
  pose proof (idxmax_None audiencia_objetivo df) as A1.
  pose proof (idxmin_None audiencia_objetivo df) as A2.
  unfold valor, salida, recomendaciones.
  unfold bind, print_section, print, o_raise, ret, raise.
  destruct (idxmax (roas_medio plataforma df)) as [mp |].
  2: { rewrite (proj1 P1 eq_refl). split; reflexivity. }
  destruct (idxmin (roas_medio plataforma df)) as [pp |].
  2: { rewrite (proj1 P2 eq_refl). split; reflexivity. }
  destruct (existsb (con_roas plataforma) df);
    [|destruct P1 as [_ P1]; discriminate (P1 eq_refl)].
  destruct (idxmax (roas_medio audiencia_objetivo df)) as [me |].
  2: { rewrite (proj1 A1 eq_refl). split; reflexivity. }
  destruct (idxmin (roas_medio audiencia_objetivo df)) as [pe |].
  2: { rewrite (proj1 A2 eq_refl). split; reflexivity. }
  destruct (existsb (con_roas audiencia_objetivo) df);
    [|destruct A1 as [_ A1]; discriminate (A1 eq_refl)].
  destruct (roas_saludable kpis), (conversion_respetable kpis);
    (split; [reflexivity | discriminate]).
Qed.

(** ** The order of the values that are numbers *)

Lemma Qcltb_false (x y : Qc) : Qcltb x y = false <-> (y <= x)%Qc.
Proof.
  split; intro H.
  - apply Qcnot_lt_le. intro L. apply Qcltb_lt in L. congruence.
  - destruct (Qcltb x y) eqn:E; [|reflexivity].
    apply Qcltb_lt in E. now apply Qcle_not_lt in H.
Qed.

Ltac orden_qc :=
  repeat match goal with
    | H : Qcltb _ _ = true |- _ => apply Qcltb_lt in H
    | H : Qcltb _ _ = false |- _ => apply Qcltb_false in H
    | |- Qcltb _ _ = true => apply Qcltb_lt
    | |- Qcltb _ _ = false => apply Qcltb_false
    end;
  eauto using Qclt_trans, Qcle_lt_trans, Qclt_le_trans, Qcle_trans,
    Qclt_le_weak.

Lemma fgtb_trans (a b c : float64) :
  fgtb a b = true -> fgtb b c = true -> fgtb a c = true.
Proof.
  destruct a, b, c; simpl; try discriminate; try reflexivity; intros;
    orden_qc.
Qed.

Lemma fgtb_no_menor (a b c : float64) :
  c <> NaN ->
  fgtb a b = true -> fgtb c b = false -> fgtb a c = true.
Proof.
  destruct a, b, c; simpl; try discriminate; try reflexivity;
    try congruence; intros; orden_qc.
Qed.

Lemma fgtb_no_mayor (a b c : float64) :
  c <> NaN ->
  fgtb b a = true -> fgtb b c = false -> fgtb c a = true.
Proof.
  destruct a, b, c; simpl; try discriminate; try reflexivity;
    try congruence; intros; orden_qc.
Qed.

Section Mejor.

Variable gt : float64 -> float64 -> bool.
Hypothesis gt_trans :
  forall a b c, gt a b = true -> gt b c = true -> gt a c = true.
Hypothesis gt_resto :
  forall a b c, c <> NaN -> gt a b = true -> gt c b = false -> gt a c = true.

(** What [mejor] returns: the first entry that nothing beats. *)
Lemma mejor_spec (s : list (string * float64))
  (acc : option (string * float64)) (r : string * float64) :
  (forall a, acc = Some a -> snd a <> NaN) ->
  mejor gt s acc = Some r ->
  snd r <> NaN /\
  ((acc = Some r /\
    forall k v, In (k, v) s -> v = NaN \/ gt v (snd r) = false) \/
   exists l1 l2,
     s = (l1 ++ r :: l2)%list /\
     (forall a, acc = Some a -> gt (snd r) (snd a) = true) /\
     (forall k v, In (k, v) l1 -> v = NaN \/ gt (snd r) v = true) /\
     (forall k v, In (k, v) l2 -> v = NaN \/ gt v (snd r) = false)).
Proof.
  revert acc. induction s as [| [k v] s IH]; intros acc Hacc H.
  - simpl in H. split; [now apply Hacc|]. left. split; [exact H|].
    intros ? ? [].
  - assert (Hnan : v = NaN -> mejor gt s acc = Some r)
      by (intro E; rewrite E in H; exact H).
    assert (Hnum : v <> NaN ->
              match acc with
              | None => mejor gt s (Some (k, v))
              | Some (_, b) =>
                  if gt v b then mejor gt s (Some (k, v)) else mejor gt s acc
              end = Some r)
      by (intro N; destruct v; try exact H; now elim N).
    clear H.
    assert (Dv : v = NaN \/ v <> NaN)
      by (destruct v; auto; right; discriminate).
    destruct Dv as [E | N].
    + (* a NaN entry is skipped *)
      destruct (IH acc Hacc (Hnan E)) as (Hr & [(Ha & Hs) | D]).
      * split; [exact Hr|]. left. split; [exact Ha|].
        intros k' v' [X | Hin]; [inversion X; subst; now left | eauto].
      * destruct D as (l1 & l2 & -> & Hb & H1 & H2).
        split; [exact Hr|]. right. exists ((k, v) :: l1), l2.
        repeat split; auto.
        intros k' v' [X | Hin]; [inversion X; subst; now left | eauto].
    + specialize (Hnum N). clear Hnan.
      assert (Tomado :
                mejor gt s (Some (k, v)) = Some r ->
                (forall a, acc = Some a -> gt v (snd a) = true) ->
                snd r <> NaN /\
                ((acc = Some r /\
                  forall k' v', In (k', v') ((k, v) :: s) ->
                                v' = NaN \/ gt v' (snd r) = false) \/
                 exists l1 l2,
                   (k, v) :: s = (l1 ++ r :: l2)%list /\
                   (forall a, acc = Some a -> gt (snd r) (snd a) = true) /\
                   (forall k' v', In (k', v') l1 ->
                                  v' = NaN \/ gt (snd r) v' = true) /\
                   (forall k' v', In (k', v') l2 ->
                                  v' = NaN \/ gt v' (snd r) = false))).
      { intros Hm Hv.
        destruct (IH (Some (k, v))) with (2 := Hm)
          as (Hr & [(Ha & Hs) | D]).
        - intros a Ea. inversion Ea; subst. exact N.
        - inversion Ha; subst r. split; [exact Hr|]. right.
          exists [], s. repeat split; auto; try (intros ? ? []).
        - destruct D as (l1 & l2 & -> & Hb & H1 & H2).
          split; [exact Hr|]. right. exists ((k, v) :: l1), l2.
          repeat split; auto.
          + intros a Ea. apply gt_trans with v; [|now apply Hv].
            apply (Hb (k, v) eq_refl).
          + intros k' v' [X | Hin]; [|eauto]. inversion X; subst.
            right. apply (Hb (k', v') eq_refl). }
      destruct acc as [[k0 b] |].
      * destruct (gt v b) eqn:G.
        -- apply Tomado; [exact Hnum|].
           intros a Ea. inversion Ea; subst. exact G.
        -- destruct (IH (Some (k0, b)) Hacc Hnum) as (Hr & [(Ha & Hs) | D]).
           ++ split; [exact Hr|]. left. split; [exact Ha|].
              inversion Ha; subst r.
              intros k' v' [X | Hin]; [|eauto]. inversion X; subst.
              now right.
           ++ destruct D as (l1 & l2 & -> & Hb & H1 & H2).
              split; [exact Hr|]. right. exists ((k, v) :: l1), l2.
              repeat split; auto.
              intros k' v' [X | Hin]; [|eauto]. inversion X; subst.
              right. apply gt_resto with b; auto.
              apply (Hb (k0, b) eq_refl).
      * apply Tomado; [exact Hnum|]. intros a Ea. discriminate.
Qed.

End Mejor.

Lemma roas_medio_valores (key : Campana -> option string) (df : DataFrame)
  (k : string) (v : float64) :
  In (k, v) (roas_medio key df) -> v = NaN \/ exists q, v = Fin q.
Proof.
  intro H. apply In_roas_medio in H. destruct H as (_ & ->).
  apply mean_Fin_o_NaN.
Qed.

Lemma extremo_max (key : Campana -> option string) (df : DataFrame)
  (mp : string) :
  idxmax (roas_medio key df) = Some mp ->
  exists m, max (roas_medio key df) = Fin m /\
            es_maximo (roas_medio key df) mp m.
Proof.
  unfold idxmax, max.
  destruct (mejor fgtb (roas_medio key df) None) as [[k v] |] eqn:E;
    [|discriminate].
  simpl. intro X. inversion X; subst k. clear X.
  assert (Hacc : forall a : string * float64, None = Some a -> snd a <> NaN)
    by discriminate.
  destruct (mejor_spec fgtb fgtb_trans fgtb_no_menor
              (roas_medio key df) None (mp, v) Hacc E)
    as (Hv & [(X & _) | D]); try discriminate.
  destruct D as (l1 & l2 & Es & _ & H1 & H2). simpl in Hv, H1, H2.
  assert (Hin : In (mp, v) (roas_medio key df))
    by (rewrite Es; apply in_elt).
  destruct (roas_medio_valores key df mp v Hin) as [-> | (m & ->)];
    [now elim Hv|].
  exists m. split; [reflexivity|]. exists l1, l2. split; [exact Es|].
  split; intros k' v' Hk'.
  - assert (Hin' : In (k', v') (roas_medio key df))
      by (rewrite Es; apply in_or_app; now left).
    destruct (roas_medio_valores key df k' v' Hin') as [-> | (q & ->)];
      [now left | right].
    exists q. split; [reflexivity|].
    destruct (H1 k' _ Hk') as [X | X]; [discriminate|].
    simpl in X. now apply Qcltb_lt.
  - assert (Hin' : In (k', v') (roas_medio key df))
      by (rewrite Es; apply in_or_app; right; now right).
    destruct (roas_medio_valores key df k' v' Hin') as [-> | (q & ->)];
      [now left | right].
    exists q. split; [reflexivity|].
    destruct (H2 k' _ Hk') as [X | X]; [discriminate|].
    simpl in X. now apply Qcltb_false.
Qed.

Lemma extremo_min (key : Campana -> option string) (df : DataFrame)
  (pp : string) :
  idxmin (roas_medio key df) = Some pp ->
  exists p, min (roas_medio key df) = Fin p /\
            es_minimo (roas_medio key df) pp p.
Proof.
  unfold idxmin, min.
  destruct (mejor (fun a b => fgtb b a) (roas_medio key df) None)
    as [[k v] |] eqn:E; [|discriminate].
  simpl. intro X. inversion X; subst k. clear X.
  assert (Hacc : forall a : string * float64, None = Some a -> snd a <> NaN)
    by discriminate.
  destruct (mejor_spec (fun a b => fgtb b a)
              (fun a b c H1 H2 => fgtb_trans c b a H2 H1)
              (fun a b c => fgtb_no_mayor a b c)
              (roas_medio key df) None (pp, v) Hacc E)
    as (Hv & [(X & _) | D]); try discriminate.
  destruct D as (l1 & l2 & Es & _ & H1 & H2). simpl in Hv, H1, H2.
  assert (Hin : In (pp, v) (roas_medio key df))
    by (rewrite Es; apply in_elt).
  destruct (roas_medio_valores key df pp v Hin) as [-> | (p & ->)];
    [now elim Hv|].
  exists p. split; [reflexivity|]. exists l1, l2. split; [exact Es|].
  split; intros k' v' Hk'.
  - assert (Hin' : In (k', v') (roas_medio key df))
      by (rewrite Es; apply in_or_app; now left).
    destruct (roas_medio_valores key df k' v' Hin') as [-> | (q & ->)];
      [now left | right].
    exists q. split; [reflexivity|].
    destruct (H1 k' _ Hk') as [X | X]; [discriminate|].
    simpl in X. now apply Qcltb_lt.
  - assert (Hin' : In (k', v') (roas_medio key df))
      by (rewrite Es; apply in_or_app; right; now right).
    destruct (roas_medio_valores key df k' v' Hin') as [-> | (q & ->)];
      [now left | right].
    exists q. split; [reflexivity|].
    destruct (H2 k' _ Hk') as [X | X]; [discriminate|].
    simpl in X. now apply Qcltb_false.
Qed.

Lemma es_maximo_cota (s : list (string * float64)) (k k' : string)
  (m q : Qc) :
  es_maximo s k m -> In (k', Fin q) s -> (q <= m)%Qc.
Proof.
  intros (l1 & l2 & -> & H1 & H2) Hin.
  apply in_app_or in Hin. destruct Hin as [Hin | [E | Hin]].
  - destruct (H1 _ _ Hin) as [X | (q' & X & L)]; [discriminate|].
    inversion X; subst. now apply Qclt_le_weak.
  - inversion E; subst. apply Qcle_refl.
  - destruct (H2 _ _ Hin) as [X | (q' & X & L)]; [discriminate|].
    now inversion X; subst.
Qed.

Lemma es_minimo_In (s : list (string * float64)) (k : string) (m : Qc) :
  es_minimo s k m -> In (k, Fin m) s.
Proof. intros (l1 & l2 & -> & _). apply in_elt. Qed.

Lemma es_maximo_In (s : list (string * float64)) (k : string) (m : Qc) :
  es_maximo s k m -> In (k, Fin m) s.
Proof. intros (l1 & l2 & -> & _). apply in_elt. Qed.

Lemma lineas_extremos (kpis : KPIs) (mp pp me pe : string) (df : DataFrame) :
  let out := lineas_recomendaciones kpis mp pp me pe df in
  In (Linea MEJOR "Mejor rendimiento"
        [CTexto (Some mp); CNumero (max (roas_medio plataforma df))]) out /\
  In (Linea PEOR "Peor rendimiento"
        [CTexto (Some pp); CNumero (min (roas_medio plataforma df))]) out /\
  In (Linea MEJOR "Mejor rendimiento (anos)"
        [CTexto (Some me);
         CNumero (max (roas_medio audiencia_objetivo df))]) out /\
  In (Linea PEOR "Peor rendimiento (anos)"
        [CTexto (Some pe);
         CNumero (min (roas_medio audiencia_objetivo df))]) out.
Proof.
  unfold lineas_recomendaciones. cbv zeta. simpl In.
  repeat split; tauto.
Qed.

(** X4: when [recomendaciones] returns, the platform it names as best
    is the first one, in the alphabetical order of the table, whose mean
    ROAS is the greatest, and the one it names as worst is the first one
    whose mean is the least (platforms without a mean do not count); the
    values printed with them are those means, the worst not above the
    best.  The same holds for the audiences. *)
Theorem recomendaciones_extremos (df : DataFrame) (kpis : KPIs) :
  valor (recomendaciones df kpis) = Devuelve tt ->
  let out := salida (recomendaciones df kpis) in
  (exists mp m pp p,
     es_maximo (roas_medio plataforma df) mp m /\
     es_minimo (roas_medio plataforma df) pp p /\
     (p <= m)%Qc /\
     In (Linea MEJOR "Mejor rendimiento"
           [CTexto (Some mp); CNumero (Fin m)]) out /\
     In (Linea PEOR "Peor rendimiento"
           [CTexto (Some pp); CNumero (Fin p)]) out) /\
  (exists me m pe p,
     es_maximo (roas_medio audiencia_objetivo df) me m /\
     es_minimo (roas_medio audiencia_objetivo df) pe p /\
     (p <= m)%Qc /\
     In (Linea MEJOR "Mejor rendimiento (anos)"
           [CTexto (Some me); CNumero (Fin m)]) out /\
     In (Linea PEOR "Peor rendimiento (anos)"
           [CTexto (Some pe); CNumero (Fin p)]) out).
Proof.
  intros Hv out.
  destruct (recomendaciones_devuelve df kpis Hv)
    as (mp & pp & me & pe & E1 & E2 & E3 & E4 & Hout).
  subst out. rewrite Hout. clear Hout Hv.
  destruct (lineas_extremos kpis mp pp me pe df) as (L1 & L2 & L3 & L4).
  destruct (extremo_max _ _ _ E1) as (m1 & M1 & X1).
  destruct (extremo_min _ _ _ E2) as (p1 & P1 & Y1).
  destruct (extremo_max _ _ _ E3) as (m2 & M2 & X2).
  destruct (extremo_min _ _ _ E4) as (p2 & P2 & Y2).
  rewrite M1 in L1. rewrite P1 in L2. rewrite M2 in L3. rewrite P2 in L4.
  split.
  - exists mp, m1, pp, p1. repeat split; trivial.
    eapply es_maximo_cota; [exact X1 | eapply es_minimo_In; exact Y1].
  - exists me, m2, pe, p2. repeat split; trivial.
    eapply es_maximo_cota; [exact X2 | eapply es_minimo_In; exact Y2].
Qed.

Lemma mejor_y_peor_df_AB :
  valor (recomendaciones df_AB (kpis_de (dec 500 1) (dec 100 1)))
  = Devuelve tt /\
  exists mp m pp p,
    es_maximo (roas_medio plataforma df_AB) mp m /\
    es_minimo (roas_medio plataforma df_AB) pp p /\
    (p <= m)%Qc.
Proof.
  assert (Hv : valor (recomendaciones df_AB (kpis_de (dec 500 1) (dec 100 1)))
               = Devuelve tt) by (vm_compute; reflexivity).
  split; [exact Hv|].
  pose proof (recomendaciones_extremos df_AB _ Hv) as H. cbv zeta in H.
  destruct H as ((mp & m & pp & p & H1 & H2 & H3 & _) & _).
  exists mp, m, pp, p. auto.
Defined.

(** ** The extremes and the tables *)

Lemma fila_de_media (spec : list Agg) (i : nat)
  (key : Campana -> option string) (df : DataFrame) (k : string)
  (v : float64) :
  nth_error spec i = Some (AggMean roas) ->
  In (k, v) (roas_medio key df) ->
  exists celdas,
    In (k, celdas) (round (agg spec (groupby key df))) /\
    nth_error celdas i = Some (CNumero (round2 v)).
Proof.
  intros Hs Hin. apply In_roas_medio in Hin. destruct Hin as (Hk & ->).
  exists (map round_celda
            (map (fun a => aplica a (filter (tiene_clave key k) df)) spec)).
  split.
  - unfold round, agg, groupby. rewrite !map_map. cbn [fst snd].
    apply in_map_iff. exists k. split; [now rewrite map_map | exact Hk].
  - rewrite !nth_error_map, Hs. reflexivity.
Qed.

(** X5: the platforms and audiences that [recomendaciones] names as best
    and worst are rows of the tables of [analisis_por_plataforma] and
    [analisis_por_edad], and the "ROAS Promedio" of each of these rows is
    a number, not NaN. *)
Theorem recomendaciones_y_tablas (df : DataFrame) (kpis : KPIs) :
  valor (recomendaciones df kpis) = Devuelve tt ->
  let out := salida (recomendaciones df kpis) in
  (exists mp m fm pp p fp,
     In (Linea MEJOR "Mejor rendimiento"
           [CTexto (Some mp); CNumero (Fin m)]) out /\
     In mp (indice (plataformas df)) /\
     In (mp, fm) (plataformas df) /\
     (exists x, nth_error fm 7 = Some (CNumero x) /\ x <> NaN) /\
     In (Linea PEOR "Peor rendimiento"
           [CTexto (Some pp); CNumero (Fin p)]) out /\
     In pp (indice (plataformas df)) /\
     In (pp, fp) (plataformas df) /\
     (exists x, nth_error fp 7 = Some (CNumero x) /\ x <> NaN)) /\
  (exists me m fm pe p fp,
     In (Linea MEJOR "Mejor rendimiento (anos)"
           [CTexto (Some me); CNumero (Fin m)]) out /\
     In me (indice (edades df)) /\
     In (me, fm) (edades df) /\
     (exists x, nth_error fm 4 = Some (CNumero x) /\ x <> NaN) /\
     In (Linea PEOR "Peor rendimiento (anos)"
           [CTexto (Some pe); CNumero (Fin p)]) out /\
     In pe (indice (edades df)) /\
     In (pe, fp) (edades df) /\
     (exists x, nth_error fp 4 = Some (CNumero x) /\ x <> NaN)).
Proof.
  intros Hv out.
  destruct (recomendaciones_devuelve df kpis Hv)
    as (mp & pp & me & pe & E1 & E2 & E3 & E4 & Hout).
  subst out. rewrite Hout. clear Hout Hv.
  destruct (lineas_extremos kpis mp pp me pe df) as (L1 & L2 & L3 & L4).
  destruct (extremo_max _ _ _ E1) as (m1 & M1 & X1).
  destruct (extremo_min _ _ _ E2) as (p1 & P1 & Y1).
  destruct (extremo_max _ _ _ E3) as (m2 & M2 & X2).
  destruct (extremo_min _ _ _ E4) as (p2 & P2 & Y2).
  rewrite M1 in L1. rewrite P1 in L2. rewrite M2 in L3. rewrite P2 in L4.
  apply es_maximo_In in X1, X2. apply es_minimo_In in Y1, Y2.
  pose (sp := [ AggCount campana_id; AggSum presupuesto_diario; AggSum impresiones;
         AggSum clicks; AggSum conversiones; AggSum costo_total;
         AggSum revenue_generado; AggMean roas ]).
  pose (se := [ AggCount campana_id; AggSum conversiones; AggSum costo_total;
         AggSum revenue_generado; AggMean roas ]).
  assert (Hi : forall (t : Tabla) k f, In (k, f) t -> In k (indice t)).
  { intros t k f H. unfold indice. apply in_map_iff. now exists (k, f). }
  split.
  - destruct (fila_de_media sp 7 _ _ _ _ eq_refl X1) as (fm & F1 & F2).
    destruct (fila_de_media sp 7 _ _ _ _ eq_refl Y1) as (fp & G1 & G2).
    exists mp, m1, fm, pp, p1, fp.
    split; [exact L1|]. split; [exact (Hi _ _ _ F1)|]. split; [exact F1|].
    split; [eexists; split; [exact F2 | discriminate]|].
    split; [exact L2|]. split; [exact (Hi _ _ _ G1)|]. split; [exact G1|].
    eexists; split; [exact G2 | discriminate].
  - destruct (fila_de_media se 4 _ _ _ _ eq_refl X2) as (fm & F1 & F2).
    destruct (fila_de_media se 4 _ _ _ _ eq_refl Y2) as (fp & G1 & G2).
    exists me, m2, fm, pe, p2, fp.
    split; [exact L3|]. split; [exact (Hi _ _ _ F1)|]. split; [exact F1|].
    split; [eexists; split; [exact F2 | discriminate]|].
    split; [exact L4|]. split; [exact (Hi _ _ _ G1)|]. split; [exact G1|].
    eexists; split; [exact G2 | discriminate].
Qed.

Lemma mejor_en_la_tabla_df_AB :
  valor (recomendaciones df_AB (kpis_de (dec 500 1) (dec 100 1)))
  = Devuelve tt /\
  exists mp pp,
    In mp (indice (plataformas df_AB)) /\
    In pp (indice (plataformas df_AB)).
Proof.
  assert (Hv : valor (recomendaciones df_AB (kpis_de (dec 500 1) (dec 100 1)))
               = Devuelve tt) by (vm_compute; reflexivity).
  split; [exact Hv|].
  pose proof (recomendaciones_y_tablas df_AB _ Hv) as H. cbv zeta in H.
  destruct H as ((mp & m & fm & pp & p & fp & _ & H1 & _ & _ & _ & H2 & _) & _).
  exists mp, pp. auto.
Defined.

(** On a frame without rows nothing has a ROAS: the heading is the only
    line. *)
Lemma sin_filas_solo_el_titulo :
  valor (recomendaciones [] (kpis_de (dec 500 1) (dec 100 1)))
  = Lanza ValueError /\
  salida (recomendaciones [] (kpis_de (dec 500 1) (dec 100 1)))
  = [Seccion "11. RECOMENDACIONES ESTRATEGICAS" []].
Proof.
  destruct (recomendaciones_cuando_falla [] (kpis_de (dec 500 1) (dec 100 1)))
    as (H1 & H2).
  split; [exact H1 | exact (H2 H1)].
Defined.

(* ================================================================== *)
(** * Rankings: what is left out *)
(* ================================================================== *)

Lemma StronglySorted_app_entre {A : Type} (R : A -> A -> Prop)
  (l1 l2 : list A) :
  StronglySorted R (l1 ++ l2)%list ->
  forall a b, In a l1 -> In b l2 -> R a b.
Proof.
  induction l1 as [| x l1 IH]; simpl; intros H a b Ha Hb; [contradiction|].
  inversion H as [| ? ? Hs Hx]; subst.
  destruct Ha as [<- | Ha].
  - rewrite Forall_forall in Hx. apply Hx, in_or_app. now right.
  - now apply IH.
Qed.

Lemma head_resto {A : Type} (R : A -> A -> Prop) (n : Z) (l : list A) :
  StronglySorted R l ->
  (head n l ++ skipn (Z.to_nat n) l)%list = l /\
  forall a b, In a (head n l) -> In b (skipn (Z.to_nat n) l) -> R a b.
Proof.
  intro H. unfold head. split; [apply firstn_skipn|].
  apply StronglySorted_app_entre. now rewrite firstn_skipn.
Qed.

(** X6: the rows that [nlargest] leaves out are no better than the rows
    it returns: together they are the dataset, and no row left out
    comes before a returned one in descending order of the column (in
    particular a row without a value is returned only if every row left
    out has none either).  The same holds for [nsmallest] in ascending
    order. *)
Theorem ranking_deja_fuera_lo_peor (df : DataFrame)
  (c : Campana -> option Qc) (n : Z) :
  (exists resto,
     Permutation (nlargest n c df ++ resto)%list df /\
     (forall a b, In a (nlargest n c df) -> In b resto ->
                  desc (c a) (c b) = true) /\
     (forall a b, In a (nlargest n c df) -> In b resto ->
                  c a = None -> c b = None) /\
     (forall a b x y, In a (nlargest n c df) -> In b resto ->
                      c a = Some x -> c b = Some y -> (y <= x)%Qc)) /\
  (exists resto,
     Permutation (nsmallest n c df ++ resto)%list df /\
     (forall a b, In a (nsmallest n c df) -> In b resto ->
                  asc (c a) (c b) = true) /\
     (forall a b, In a (nsmallest n c df) -> In b resto ->
                  c a = None -> c b = None) /\
     (forall a b x y, In a (nsmallest n c df) -> In b resto ->
                      c a = Some x -> c b = Some y -> (x <= y)%Qc)).
Proof.
  split.
  - pose proof (ordena_sorted (fun a b => desc (c a) (c b))
                  (fun a b => desc_total c a b)
                  (fun a b d => desc_trans c a b d) df) as Hs.
    destruct (head_resto _ n _ Hs) as (E & Hr).
    exists (skipn (Z.to_nat n) (ordena (fun a b => desc (c a) (c b)) df)).
    unfold nlargest. split; [|split; [exact Hr | split]].
    + rewrite E. apply ordena_Permutation.
    + intros a b Ha Hb Ea. specialize (Hr a b Ha Hb). rewrite Ea in Hr.
      destruct (c b); [discriminate | reflexivity].
    + intros a b x y Ha Hb Ea Eb. specialize (Hr a b Ha Hb).
      rewrite Ea, Eb in Hr. now apply desc_valores.
  - pose proof (ordena_sorted (fun a b => asc (c a) (c b))
                  (fun a b => asc_total c a b)
                  (fun a b d => asc_trans c a b d) df) as Hs.
    destruct (head_resto _ n _ Hs) as (E & Hr).
    exists (skipn (Z.to_nat n) (ordena (fun a b => asc (c a) (c b)) df)).
    unfold nsmallest. split; [|split; [exact Hr | split]].
    + rewrite E. apply ordena_Permutation.
    + intros a b Ha Hb Ea. specialize (Hr a b Ha Hb). rewrite Ea in Hr.
      destruct (c b); [discriminate | reflexivity].
    + intros a b x y Ha Hb Ea Eb. specialize (Hr a b Ha Hb).
      rewrite Ea, Eb in Hr. now apply asc_valores.
Qed.

Lemma resto_df_empate :
  exists resto,
    Permutation (nlargest 1 roas df_empate ++ resto)%list df_empate /\
    forall a b, In a (nlargest 1 roas df_empate) -> In b resto ->
                desc (roas a) (roas b) = true.
Proof.
  destruct (ranking_deja_fuera_lo_peor df_empate roas 1)
    as ((resto & Hp & Hd & _) & _).
  exists resto. split; [exact Hp | exact Hd].
Defined.

(** ** Best and worst do not overlap *)

Lemma sorted_unica {A : Type} (R : A -> A -> Prop) (l1 l2 : list A) :
  (forall a b, In a l1 -> In b l1 -> R a b -> R b a -> a = b) ->
  Permutation l1 l2 ->
  StronglySorted R l1 -> StronglySorted R l2 -> l1 = l2.
Proof.
  revert l2. induction l1 as [| a l1 IH]; intros l2 Hanti Hp H1 H2.
  - apply Permutation_nil in Hp. now subst.
  - destruct l2 as [| b l2];
      [apply Permutation_sym, Permutation_nil in Hp; discriminate|].
    inversion H1 as [| ? ? S1 F1]; subst.
    inversion H2 as [| ? ? S2 F2]; subst.
    rewrite Forall_forall in F1, F2.
    assert (E : a = b).
    { assert (Ha : In a (b :: l2))
        by (apply (Permutation_in _ Hp); now left).
      assert (Hb : In b (a :: l1))
        by (apply (Permutation_in _ (Permutation_sym Hp)); now left).
      destruct Ha as [Ha | Ha]; [now symmetry|].
      destruct Hb as [Hb | Hb]; [exact Hb|].
      apply Hanti; [now left | now right | now apply F1 | now apply F2]. }
    subst b. f_equal. apply IH; trivial.
    + intros x y Hx Hy. apply Hanti; now right.
    + now apply Permutation_cons_inv with a.
Qed.

Lemma sorted_rev {A : Type} (R : A -> A -> Prop) (l : list A) :
  StronglySorted R l -> StronglySorted (fun a b => R b a) (rev l).
Proof.
  induction 1 as [| a l Hs IH Ha]; simpl; [constructor|].
  rewrite Forall_forall in Ha.
  induction (rev l) as [| x xs IHx] eqn:E in IH, Ha |- *.
  - repeat constructor.
  - assert (Hin : forall y, In y (x :: xs) -> R a y)
      by (intros y Hy; apply Ha, in_rev; rewrite E; exact Hy).
    clear E Ha. revert Hin.
    induction IH as [| y ys Hys IHy Hy]; intro Hin; simpl.
    + repeat constructor.
    + constructor.
      * apply IHy. intros z Hz. apply Hin. now right.
      * rewrite Forall_forall in *. intros z Hz.
        apply in_app_or in Hz. destruct Hz as [Hz | [<- | []]]; auto.
        apply Hin. now left.
Qed.

Lemma asc_desc_presentes (c : Campana -> option Qc) (a b : Campana) :
  c a <> None -> c b <> None -> asc (c a) (c b) = desc (c b) (c a).
Proof.
  destruct (c a), (c b); simpl; intros Ha Hb; try reflexivity;
    now (elim Ha || elim Hb).
Qed.

Lemma StronglySorted_impl_In {A : Type} (R S : A -> A -> Prop)
  (l : list A) :
  (forall a b, In a l -> In b l -> R a b -> S a b) ->
  StronglySorted R l -> StronglySorted S l.
Proof.
  intros H Hs. induction Hs as [| a l Hs IH Ha]; constructor.
  - apply IH. intros x y Hx Hy. apply H; now right.
  - rewrite Forall_forall in *. intros y Hy.
    apply H; [now left | now right | now apply Ha].
Qed.

(** With all values present and distinct, the ascending order is the
    descending order read backwards. *)
Lemma ordena_asc_rev (c : Campana -> option Qc) (df : DataFrame) :
  distintos c df ->
  ordena (fun a b => asc (c a) (c b)) df
  = rev (ordena (fun a b => desc (c a) (c b)) df).
Proof.
  intros (Hc & Hnd). unfold completa in Hc. rewrite Forall_forall in Hc.
  pose proof (ordena_Permutation (fun a b => asc (c a) (c b)) df) as Pa.
  pose proof (ordena_Permutation (fun a b => desc (c a) (c b)) df) as Pd.
  apply (sorted_unica (fun a b => asc (c a) (c b) = true)).
  - intros a b Ha Hb H1 H2.
    apply (Permutation_in _ Pa) in Ha. apply (Permutation_in _ Pa) in Hb.
    assert (E : c a = c b).
    { pose proof (Hc a Ha) as Na. pose proof (Hc b Hb) as Nb.
      destruct (c a) as [x |], (c b) as [y |];
        try now (elim Na || elim Nb).
      simpl in H1, H2. apply Qcleb_le in H1, H2. f_equal.
      now apply Qcle_antisym. }
    clear H1 H2 Pa Pd Hc. revert a b Ha Hb E.
    induction df as [| r df IH]; intros a b Ha Hb E; [contradiction|].
    simpl in Hnd. inversion Hnd as [| ? ? Hr Hnd']; subst.
    destruct Ha as [<- | Ha], Hb as [<- | Hb]; trivial.
    + elim Hr. rewrite E. now apply in_map.
    + elim Hr. rewrite <- E. now apply in_map.
    + now apply IH.
  - apply perm_trans with df; [exact Pa|].
    apply Permutation_sym. apply perm_trans with (2 := Pd).
    apply Permutation_sym, Permutation_rev.
  - apply ordena_sorted;
      [intros; apply asc_total | intros ? ? ?; apply asc_trans].
  - apply StronglySorted_impl_In
      with (R := fun a b => desc (c b) (c a) = true).
    + intros a b Ha Hb H. rewrite asc_desc_presentes; trivial.
      * apply Hc. apply (Permutation_in _ Pd). now apply in_rev.
      * apply Hc. apply (Permutation_in _ Pd). now apply in_rev.
    + apply (sorted_rev (fun a b => desc (c a) (c b) = true)).
      apply ordena_sorted;
        [intros; apply desc_total | intros ? ? ?; apply desc_trans].
Qed.

Lemma NoDup_map_NoDup {A B : Type} (f : A -> B) (l : list A) :
  NoDup (map f l) -> NoDup l.
Proof.
  induction l as [| x l IH]; simpl; intro H; [constructor|].
  inversion H; subst. constructor; [|now apply IH].
  intro Hx. apply (in_map f) in Hx. contradiction.
Qed.

Lemma firstn_skipn_disjuntos {A : Type} (n m : nat) (l : list A) :
  NoDup l -> n <= m ->
  forall x, In x (firstn n l) -> ~ In x (skipn m l).
Proof.
  intros Hnd Hnm x H1 H2.
  rewrite <- (firstn_skipn m l) in Hnd.
  apply NoDup_app_remove_l in Hnd as Hs.
  assert (H1' : In x (firstn m l)).
  { rewrite <- (firstn_skipn n (firstn m l)).
    apply in_or_app. left. rewrite firstn_firstn.
    now replace (Nat.min n m) with n by lia. }
  clear H1. revert Hnd H1' H2.
  induction (firstn m l) as [| y ys IH]; simpl; intros Hnd H1 H2;
    [contradiction|].
  inversion Hnd; subst. destruct H1 as [-> | H1].
  - match goal with H : ~ In _ _ |- _ => apply H end.
    apply in_or_app. now right.
  - now apply IH.
Qed.

(** X7: when every campaign has a value in the column, no two values
    are equal and the dataset has at least [2 n] rows, the [n] rows of
    [nlargest] and the [n] rows of [nsmallest] have no row in common:
    the top 3 and the bottom 3 that [main] prints never overlap on six
    or more campaigns with distinct ROAS. *)
Theorem top_y_bottom_disjuntos (df : DataFrame)
  (c : Campana -> option Qc) (n : Z) :
  distintos c df ->
  (2 * n <= Z.of_nat (List.length df))%Z ->
  forall r, In r (nlargest n c df) -> ~ In r (nsmallest n c df).
Proof.
  intros Hd Hn r H1 H2.
  unfold nlargest, nsmallest, head in *.
  rewrite (ordena_asc_rev c df Hd), firstn_rev in H2.
  apply in_rev in H2. rewrite ordena_length in H2.
  assert (Hnd : NoDup (ordena (fun a b => desc (c a) (c b)) df)).
  { apply (Permutation_NoDup
             (Permutation_sym (ordena_Permutation _ df))).
    apply (NoDup_map_NoDup c). apply Hd. }
  apply (firstn_skipn_disjuntos (Z.to_nat n)
           (List.length df - Z.to_nat n) _ Hnd) with (x := r); trivial.
  lia.
Qed.

Lemma mejor_no_es_peor_df_AB :
  distintos roas df_AB /\
  In (fila "c2" "B" "25-34" (dec 8 1) (dec 400 1) (dec 50 1))
     (nlargest 1 roas df_AB) /\
  ~ In (fila "c2" "B" "25-34" (dec 8 1) (dec 400 1) (dec 50 1))
       (nsmallest 1 roas df_AB).
Proof.
  assert (Hd : distintos roas df_AB).
  { split; [repeat constructor; discriminate|].
    repeat constructor; simpl; [|tauto].
    intros [E | []]. inversion E. }
  assert (Hin : In (fila "c2" "B" "25-34" (dec 8 1) (dec 400 1) (dec 50 1))
                   (nlargest 1 roas df_AB)) by (left; reflexivity).
  split; [exact Hd|]. split; [exact Hin|].
  apply (top_y_bottom_disjuntos df_AB roas 1 Hd); [simpl; lia | exact Hin].
Defined.

(* ================================================================== *)
(** * Validation: the verdict and the counts *)
(* ================================================================== *)

Lemma validacion_datos_salida (df : DataFrame) :
  salida (validacion_datos df) =
  [ Seccion "10. VALIDACION DE DATOS" [];
    Linea Plano "Valores faltantes por columna:" [];
    Cuadro []
      (map (fun cn => [ CTexto (Some (nombre (fst cn)));
                        CEntero (Z.of_nat (snd cn)) ])
           (faltantes df));
    (if Nat.eqb (total_faltantes df) 0
     then Linea OK "No hay valores faltantes - Datos integros" []
     else Linea ERROR "Hay valores faltantes a revisar"
            [CEntero (Z.of_nat (total_faltantes df))]) ].
Proof.
  unfold salida, validacion_datos, bind, print_section, print, ret.
  destruct (Nat.eqb (total_faltantes df) 0); reflexivity.
Qed.

Lemma list_sum_positiva (l : list nat) :
  list_sum l <> 0 -> exists n, In n l /\ n <> 0.
Proof.
  induction l as [| x l IH]; simpl; intro H; [now elim H|].
  destruct x as [| x].
  - destruct (IH H) as (n & Hn & Hp). exists n. auto.
  - exists (S x). split; [now left | discriminate].
Qed.

Lemma faltantes_de_positiva (c : Columna) (df : DataFrame) :
  faltantes_de c df <> 0 -> exists r, In r df /\ isnull c r = true.
Proof.
  unfold faltantes_de. induction df as [| x df IH]; simpl; intro H;
    [now elim H|].
  destruct (isnull c x) eqn:E.
  - exists x. auto.
  - destruct (IH H) as (r & Hr & Hn). exists r. auto.
Qed.

(** X8: [validacion_datos] prints its verdict on the last line: the
    [OK] line exactly when no value of the dataset is missing, and
    otherwise the [ERROR] line with the number of missing values, in
    which case some cell of some column is missing. *)
Theorem validacion_datos_veredicto (df : DataFrame) :
  let out := salida (validacion_datos df) in
  (last out (Seccion "" [])
   = Linea OK "No hay valores faltantes - Datos integros" []
   <-> forall c r, In r df -> isnull c r = false) /\
  (last out (Seccion "" [])
   = Linea ERROR "Hay valores faltantes a revisar"
       [CEntero (Z.of_nat (total_faltantes df))]
   <-> exists c r, In r df /\ isnull c r = true) /\
  (last out (Seccion "" [])
   = Linea OK "No hay valores faltantes - Datos integros" [] \/
   last out (Seccion "" [])
   = Linea ERROR "Hay valores faltantes a revisar"
       [CEntero (Z.of_nat (total_faltantes df))]).
Proof.
  cbv zeta. rewrite validacion_datos_salida. cbn [last].
  pose proof (total_faltantes_cero df) as Hz.
  destruct (Nat.eqb_spec (total_faltantes df) 0) as [E | N].
  - split; [|split].
    + split; [intros _; now apply Hz | reflexivity].
    + split; [discriminate|]. intros (c & r & Hr & Hn).
      rewrite (proj1 Hz E c r Hr) in Hn. discriminate.
    + now left.
  - split; [|split].
    + split; [discriminate|]. intro H. elim N. now apply Hz.
    + split; [|reflexivity]. intros _.
      rewrite total_faltantes_suma in N.
      apply list_sum_positiva in N. destruct N as (n & Hn & Hp).
      apply in_map_iff in Hn. destruct Hn as (c & <- & _).
      apply faltantes_de_positiva in Hp. destruct Hp as (r & Hr & Hm).
      exists c, r. auto.
    + now right.
Qed.

Lemma list_sum_map_plus {A : Type} (f g : A -> nat) (l : list A) :
  list_sum (map (fun x => f x + g x) l)
  = list_sum (map f l) + list_sum (map g l).
Proof. induction l as [| x l IH]; simpl; [reflexivity | lia]. Qed.

(** X9: the counts of [validacion_datos] depend on the rows only, not
    on their order or on how the data is split: for two datasets put
    one after the other each column count and the total are the sums of
    theirs, and reordering the rows changes neither the series of counts
    nor the value returned. *)
Theorem validacion_datos_por_partes (df1 df2 : DataFrame) :
  (forall c, faltantes_de c (df1 ++ df2)%list
             = faltantes_de c df1 + faltantes_de c df2) /\
  total_faltantes (df1 ++ df2)%list
  = total_faltantes df1 + total_faltantes df2 /\
  (Permutation df1 df2 ->
   faltantes df1 = faltantes df2 /\
   valor (validacion_datos df1) = valor (validacion_datos df2)).
Proof.
  assert (Happ : forall c, faltantes_de c (df1 ++ df2)%list
                           = faltantes_de c df1 + faltantes_de c df2).
  { intro c. unfold faltantes_de. now rewrite filter_app, length_app. }
  split; [exact Happ|]. split.
  - rewrite !total_faltantes_suma, <- list_sum_map_plus. f_equal.
    apply map_ext. exact Happ.
  - intro Hp.
    assert (E : faltantes df1 = faltantes df2).
    { unfold faltantes, nulos. apply map_ext. intro c. f_equal.
      now apply filter_Permutation_length. }
    split; [exact E|].
    rewrite !validacion_datos_valor. unfold total_faltantes. now rewrite E.
Qed.

Lemma faltantes_df_AB_df_BA :
  Permutation df_AB df_BA /\
  faltantes df_AB = faltantes df_BA /\
  valor (validacion_datos df_AB) = valor (validacion_datos df_BA).
Proof.
  assert (Hp : Permutation df_AB df_BA) by apply perm_swap.
  split; [exact Hp|].
  apply (validacion_datos_por_partes df_AB df_BA). exact Hp.
Defined.

(* ================================================================== *)
(** * The margin of a dataset *)
(* ================================================================== *)

Local Open Scope Qc_scope.

Lemma suma_no_negativa (c : Campana -> option Qc) (df : DataFrame) :
  no_negativa c df -> 0 <= suma (dropna (col c df)).
Proof.
  induction 1 as [| r df Hr _ IH]; simpl; [apply Qcle_refl|].
  destruct (c r) as [q |]; simpl; [|exact IH].
  replace 0 with (0 + 0) by ring. now apply Qcplus_le_compat.
Qed.

Lemma Qcinv_pos (x : Qc) : 0 < x -> 0 < / x.
Proof.
  intro H. unfold Qclt in *. change (this 0) with 0%Q in *.
  unfold Qcinv, Q2Qc. cbn [this].
  rewrite (Qred_correct (/ this x)). now apply Qinv_lt_0_compat.
Qed.

Lemma of_Z_100_positivo : 0 < of_Z 100.
Proof. reflexivity. Qed.

Lemma margen_cota (g r : Qc) :
  0 < r -> g <= r -> g / r * of_Z 100 <= of_Z 100.
Proof.
  intros Hr Hg. unfold Qcdiv.
  replace (of_Z 100) with (1 * of_Z 100) at 2 by ring.
  apply Qcmult_le_compat_r; [|apply Qclt_le_weak, of_Z_100_positivo].
  rewrite <- (Qcmult_inv_r r) by (intro E; subst; now apply Qclt_irrefl in Hr).
  apply Qcmult_le_compat_r; [exact Hg|].
  now apply Qclt_le_weak, Qcinv_pos.
Qed.

Lemma margen_signo (g r : Qc) :
  0 < r -> (0 <= g / r * of_Z 100 <-> 0 <= g).
Proof.
  intro Hr. unfold Qcdiv.
  assert (Hz : 0 < / r * of_Z 100).
  { replace 0 with (0 * of_Z 100) by ring.
    apply Qcmult_lt_compat_r; [apply of_Z_100_positivo|].
    now apply Qcinv_pos. }
  rewrite <- Qcmult_assoc. split; intro H.
  - apply Qcmult_lt_0_le_reg_r with (/ r * of_Z 100); [exact Hz|].
    now rewrite Qcmult_0_l.
  - replace 0 with (0 * (/ r * of_Z 100)) by ring.
    apply Qcmult_le_compat_r; [exact H | now apply Qclt_le_weak].
Qed.

Lemma en_rango_resta (r c : Qc) :
  0 <= c -> 0 < r -> en_rango c -> en_rango r -> en_rango (r - c).
Proof.
  unfold en_rango, Qcle, Qclt. intros H0 H1 [Hc1 Hc2] [Hr1 Hr2].
  rewrite !this_of_Z in *. change (this 0) with 0%Q in *.
  unfold Qcminus, Qcplus, Qcopp, Q2Qc. cbn [this].
  rewrite (Qred_correct (this r + Qred (- this c))).
  rewrite (Qred_correct (- this c)).
  rewrite inject_Z_opp in *.
  set (K := inject_Z (2 ^ 63)) in *. clearbody K.
  split; lra.
Qed.

(** Without a bound on the totals the margin need not follow the
    totals printed: with costs 9223372036854775807 and 1 and a revenue
    of 1, the cost total wraps around to -2^63, the net profit to
    1 - 2^63, and the margin is negative although the cost KPI is below
    the revenue KPI. *)
Lemma margen_con_costo_desbordado :
  no_negativa costo_total df_costo_desborde /\
  exists k m,
    valor (indicadores_clave df_costo_desborde) = Devuelve k /\
    mayor_que (kpi_revenue_total k) 0 /\
    kpi_costo_total k = Fin (of_Z (- 2 ^ 63)) /\
    margen k = Fin m /\ m < 0 /\
    fgtb (kpi_costo_total k) (kpi_revenue_total k) = false.
Proof.
  split; [repeat constructor; discriminate|].
  eexists. exists (of_Z ((1 - 2 ^ 63) * 100)).
  split; [apply indicadores_clave_valor|].
  cbn [kpi_revenue_total kpi_costo_total].
  split; [vm_compute; reflexivity|].
  split; [fin_igual|].
  split; [fin_igual|].
  split; [apply Qcltb_lt; vm_compute; reflexivity|].
  vm_compute; reflexivity.
Qed.

(** X10: for a dataset without negative costs, with a positive total
    revenue and whose totals of cost and revenue fit in a 64-bit
    integer, the margin computed from the KPIs of [indicadores_clave]
    (printed by [recomendaciones] and drawn by [generar_metricas_kpi] on
    an axis from 0 to 100) is a number, it is at most 100, and it is
    negative exactly when the total cost exceeds the total revenue. *)
Theorem margen_en_rango (df : DataFrame) (k : KPIs) :
  valor (indicadores_clave df) = Devuelve k ->
  no_negativa costo_total df ->
  mayor_que (kpi_revenue_total k) 0 ->
  en_rango (suma_columna costo_total df) ->
  en_rango (suma_columna revenue_generado df) ->
  exists m,
    margen k = Fin m /\
    m <= of_Z 100 /\
    (m < 0 <-> fgtb (kpi_costo_total k) (kpi_revenue_total k) = true).
Proof.
  intros Hk Hc Hr HeC HeR. rewrite indicadores_clave_valor in Hk.
  inversion Hk; subst k; clear Hk.
  cbn [kpi_revenue_total kpi_costo_total] in *.
  rewrite (total_en_rango _ _ HeR) in *. rewrite (total_en_rango _ _ HeC).
  cbn [mayor_que] in Hr.
  assert (HC : 0 <= suma_columna costo_total df).
  { rewrite <- suma_dropna. now apply suma_no_negativa. }
  assert (Hg : resta_totales (col revenue_generado df) (col costo_total df)
                 (Fin (suma_columna revenue_generado df))
                 (Fin (suma_columna costo_total df))
               = Fin (suma_columna revenue_generado df
                      - suma_columna costo_total df)).
  { apply resta_en_rango.
    - intros _. now apply en_rango_resta.
    - intro E. rewrite <- suma_dropna. now apply es_int64_suma.
    - intro E. rewrite <- suma_dropna. now apply es_int64_suma. }
  set (R := suma_columna revenue_generado df) in *.
  set (C := suma_columna costo_total df) in *.
  exists ((R - C) / R * of_Z 100). split; [|split].
  - match goal with
    | |- margen ?k = _ => rewrite (margen_fin k (R - C) R Hg eq_refl)
    end.
    apply Qcgt_alt in Hr. now rewrite Hr.
  - apply margen_cota; [exact Hr|].
    apply Qcle_minus_iff. now replace (R + - (R - C)) with C by ring.
  - cbn [fgtb]. rewrite Qcltb_lt. split; intro H.
    + apply Qcnot_le_lt. intro L. apply Qclt_not_le in H. apply H.
      apply margen_signo; [exact Hr|].
      apply Qcle_minus_iff in L. now replace (R + - C) with (R - C) in L by ring.
    + apply Qcnot_le_lt. intro L. apply margen_signo in L; [|exact Hr].
      apply Qclt_not_le in H. apply H.
      apply Qcle_minus_iff. now replace (R + - C) with (R - C) by ring.
Qed.

Lemma margen_df_AB_bajo_100 :
  no_negativa costo_total df_AB /\
  exists k m, valor (indicadores_clave df_AB) = Devuelve k /\
              margen k = Fin m /\ m <= of_Z 100.
Proof.
  assert (Hc : no_negativa costo_total df_AB)
    by (repeat constructor; discriminate).
  assert (HeC : en_rango (suma_columna costo_total df_AB)).
  { split; [apply Qcleb_le | apply Qcltb_lt]; vm_compute; reflexivity. }
  assert (HeR : en_rango (suma_columna revenue_generado df_AB)).
  { split; [apply Qcleb_le | apply Qcltb_lt]; vm_compute; reflexivity. }
  split; [exact Hc|].
  eexists.
  destruct (margen_en_rango df_AB _ (indicadores_clave_valor df_AB) Hc)
    as (m & Hm & Hle & _); [reflexivity | exact HeC | exact HeR |].
  exists m. split; [apply indicadores_clave_valor|]. split; assumption.
Defined.

(* ================================================================== *)
(** * The data of the charts *)
(* ================================================================== *)

Lemma Qcltb_irrefl (x : Qc) : Qcltb x x = false.
Proof. apply Qcltb_false, Qcle_refl. Qed.



Lemma Qcltb_5_10 (q : Qc) :
  Qcltb (of_Z 5) q = false -> Qcltb q (of_Z 10) = true.
Proof.
  intro H. apply Qcltb_false in H. apply Qcltb_lt.
  apply Qcle_lt_trans with (of_Z 5); [exact H | reflexivity].
Qed.




(** ** The series of the scatter chart *)

Lemma misma_etiqueta_eq (a b : option string) :
  Graficas.misma_etiqueta a b = true <-> a = b.
Proof.
  destruct a as [x |], b as [y |]; simpl.
  - rewrite String.eqb_eq. split; congruence.
  - split; discriminate.
  - split; discriminate.
  - tauto.
Qed.

Lemma vistos_In (x : option string) (v : list (option string)) :
  existsb (Graficas.misma_etiqueta x) v = true <-> In x v.
Proof.
  rewrite existsb_exists. split.
  - intros (y & Hy & E). apply misma_etiqueta_eq in E. now subst.
  - intro H. exists x. split; [exact H | now apply misma_etiqueta_eq].
Qed.

Lemma In_unique_desde (x : option string) (v s : list (option string)) :
  In x (Graficas.unique_desde v s) <-> In x s /\ ~ In x v.
Proof.
  revert v. induction s as [| y s IH]; intro v; simpl; [tauto|].
  destruct (existsb (Graficas.misma_etiqueta y) v) eqn:E.
  - apply vistos_In in E. rewrite IH. split.
    + intros (H1 & H2). auto.
    + intros ([-> | H1] & H2); [contradiction | auto].
  - assert (Hy : ~ In y v)
      by (intro H; apply vistos_In in H; congruence).
    simpl. rewrite IH. simpl. split.
    + intros [-> | (H1 & H2)]; [auto|]. split; [auto | tauto].
    + intros ([-> | H1] & H2); [now left|].
      destruct (Graficas.misma_etiqueta x y) eqn:M;
        [apply misma_etiqueta_eq in M; now left | right].
      split; [exact H1|]. intros [E' | H3]; [|contradiction].
      symmetry in E'. apply misma_etiqueta_eq in E'. congruence.
Qed.

Lemma NoDup_unique_desde (v s : list (option string)) :
  NoDup (Graficas.unique_desde v s).
Proof.
  revert v. induction s as [| y s IH]; intro v; simpl; [constructor|].
  destruct (existsb (Graficas.misma_etiqueta y) v); [apply IH|].
  constructor; [|apply IH].
  rewrite In_unique_desde. intros (_ & H). apply H. now left.
Qed.

Lemma unique_desde_vistos (v w s : list (option string)) :
  (forall z, In z v <-> In z w) ->
  Graficas.unique_desde v s = Graficas.unique_desde w s.
Proof.
  revert v w. induction s as [| y s IH]; intros v w H; simpl; [reflexivity|].
  assert (E : existsb (Graficas.misma_etiqueta y) v
              = existsb (Graficas.misma_etiqueta y) w).
  { destruct (existsb (Graficas.misma_etiqueta y) v) eqn:Ev,
             (existsb (Graficas.misma_etiqueta y) w) eqn:Ew;
      try reflexivity.
    - apply vistos_In, H, vistos_In in Ev. congruence.
    - apply vistos_In, H, vistos_In in Ew. congruence. }
  rewrite E. destruct (existsb (Graficas.misma_etiqueta y) w).
  - now apply IH.
  - f_equal. apply IH. intro z. simpl. now rewrite H.
Qed.

Lemma filter_todos {A : Type} (p : A -> bool) (l : list A) :
  (forall x, In x l -> p x = true) -> filter p l = l.
Proof.
  induction l as [| a l IH]; simpl; intro H; [reflexivity|].
  rewrite (H a) by now left. f_equal. apply IH.
  intros x Hx. apply H. now right.
Qed.

Lemma unique_desde_filter (x : option string) (v s : list (option string)) :
  Graficas.unique_desde (x :: v) s
  = filter (fun y => negb (Graficas.misma_etiqueta y x))
      (Graficas.unique_desde v s).
Proof.
  revert v. induction s as [| y s IH]; intro v; [reflexivity|].
  cbn [Graficas.unique_desde existsb].
  destruct (existsb (Graficas.misma_etiqueta y) v) eqn:Ev.
  - rewrite orb_true_r. apply IH.
  - rewrite orb_false_r. cbn [filter].
    destruct (Graficas.misma_etiqueta y x) eqn:M; cbn [negb].
    + apply misma_etiqueta_eq in M. subst y.
      symmetry. apply filter_todos. intros z Hz.
      apply In_unique_desde in Hz. destruct Hz as (_ & Hz).
      destruct (Graficas.misma_etiqueta z x) eqn:Mz; [|reflexivity].
      apply misma_etiqueta_eq in Mz. subst z. elim Hz. now left.
    + f_equal. rewrite <- IH. apply unique_desde_vistos.
      intro z. simpl. tauto.
Qed.

Lemma igual_a_None (key : Campana -> option string) (df : DataFrame) :
  filter (Graficas.igual_a key None) df = [].
Proof.
  induction df as [| r df IH]; simpl; [reflexivity|].
  unfold Graficas.igual_a at 1. now destruct (key r).
Qed.

Lemma series_como_grupos (key : Campana -> option string) (df : DataFrame)
  (l : list (option string)) :
  flat_map (fun plat => filter (Graficas.igual_a key plat) df) l
  = flat_map (fun k => filter (tiene_clave key k) df) (dropna l).
Proof.
  induction l as [| [k |] l IH]; simpl; [reflexivity | |].
  - rewrite IH. f_equal.
  - now rewrite igual_a_None, IH.
Qed.

Lemma NoDup_dropna {A : Type} (l : list (option A)) :
  NoDup l -> NoDup (dropna l).
Proof.
  induction 1 as [| [a |] l Ha _ IH]; simpl; [constructor | | exact IH].
  constructor; [|exact IH]. now rewrite In_dropna.
Qed.

(** X12: the scatter chart of [generar_comparativa_campanas] has one
    series per label of the platform column, in the order in which the
    rows first show them, a missing platform being a label too.  The
    series of a platform is never empty, the series of the missing label
    is always empty, and the series together draw each campaign that has
    a platform exactly once: a campaign without platform is not drawn. *)
Theorem series_del_scatter (df : DataFrame) :
  NoDup (Graficas.plataformas df) /\
  (forall x, In x (Graficas.plataformas df) <-> In x (col plataforma df)) /\
  (forall r resto,
     Graficas.plataformas (r :: resto)
     = plataforma r
       :: filter (fun y => negb (Graficas.misma_etiqueta y (plataforma r)))
            (Graficas.plataformas resto)) /\
  Graficas.df_plat df None = [] /\
  (forall k, In (Some k) (Graficas.plataformas df) ->
             Graficas.df_plat df (Some k) <> []) /\
  Permutation (List.concat (map snd (Graficas.series df)))
              (filter (fun r => negb (falta (plataforma r))) df).
Proof.
  assert (Hin : forall x, In x (Graficas.plataformas df)
                          <-> In x (col plataforma df)).
  { intro x. unfold Graficas.plataformas, Graficas.unique.
    rewrite In_unique_desde. simpl. tauto. }
  split; [apply NoDup_unique_desde|]. split; [exact Hin|].
  split; [|split; [|split]].
  - intros r resto. unfold Graficas.plataformas, Graficas.unique.
    cbn [col map Graficas.unique_desde existsb].
    f_equal. apply unique_desde_filter.
  - apply igual_a_None.
  - intros k Hk. apply Hin in Hk. unfold col in Hk.
    apply in_map_iff in Hk. destruct Hk as (r & Er & Hr).
    assert (Hf : In r (Graficas.df_plat df (Some k))).
    { apply filter_In. split; [exact Hr|].
      unfold Graficas.igual_a. rewrite Er. apply String.eqb_refl. }
    intro E. rewrite E in Hf. contradiction.
  - unfold Graficas.series, Graficas.df_plat.
    rewrite map_map. cbn [snd]. rewrite <- flat_map_concat_map.
    rewrite series_como_grupos. apply grupos_Permutation.
    + apply NoDup_dropna, NoDup_unique_desde.
    + intros r k Hr Ek. apply In_dropna, Hin. unfold col.
      apply in_map_iff. exists r. auto.
Qed.

(** X13: the platforms of the scatter chart are the rows of the table
    of [analisis_por_plataforma]: the same platforms, each once, the
    chart in order of first appearance and the table in alphabetical
    order. *)
Theorem plataformas_del_scatter_y_de_la_tabla (df : DataFrame) :
  Permutation (dropna (Graficas.plataformas df)) (indice (plataformas df)) /\
  ascendente (indice (plataformas df)).
Proof.
  unfold plataformas. rewrite indice_groupby.
  split; [|apply ascendente_claves].
  apply NoDup_Permutation.
  - apply NoDup_dropna, NoDup_unique_desde.
  - apply ascendente_NoDup, ascendente_claves.
  - intro k. rewrite In_dropna, In_claves.
    unfold Graficas.plataformas, Graficas.unique.
    rewrite In_unique_desde. simpl. tauto.
Qed.

Lemma scatter_df_BA :
  In (Some "A") (Graficas.plataformas df_BA) /\
  Graficas.plataformas df_BA = [Some "B"; Some "A"] /\
  Graficas.df_plat df_BA (Some "A") <> [].
Proof.
  assert (H : In (Some "A") (Graficas.plataformas df_BA))
    by (right; left; reflexivity).
  split; [exact H|]. split; [reflexivity|].
  destruct (series_del_scatter df_BA) as (_ & _ & _ & _ & Hk & _).
  now apply Hk.
Defined.

(* ================================================================== *)
(** * The main function *)
(* ================================================================== *)

Lemma bind_sigue {A B : Type} (m : M A) (k : A -> M B) (a : A)
  (c c' : Consola) :
  m c = (Devuelve a, c') -> bind m k c = k a c'.
Proof. intro H. unfold bind. now rewrite H. Qed.

Lemma bind_lanza {A B : Type} (m : M A) (k : A -> M B) (e : Excepcion)
  (c c' : Consola) :
  m c = (Lanza e, c') -> bind m k c = (Lanza e, c').
Proof. intro H. unfold bind. now rewrite H. Qed.

Lemma valor_enumera_columnas (cols : list Columna) :
  forall i c, fst (enumera_columnas i cols c) = Devuelve tt.
Proof.
  induction cols as [| x cols IH]; intros i c; simpl; [reflexivity|].
  unfold bind, print. apply IH.
Qed.

Lemma analisis_general_devuelve (df : DataFrame) (c : Consola) :
  exists c', analisis_general df c = (Devuelve tt, c').
Proof.
  unfold analisis_general, bind, print_section, print.
  pose proof (valor_enumera_columnas columns 1) as H.
  match goal with
  | |- exists c', enumera_columnas 1 columns ?x = _ =>
      specialize (H x); destruct (enumera_columnas 1 columns x) as [r c0]
  end.
  simpl in H. subst r. eauto.
Qed.

Lemma tabla_devuelve (titulo : string) (cab : list string)
  (t : list (list Celda)) (vs : list Celda) (c : Consola) :
  exists c', (print_section titulo vs ;; print (Cuadro cab t)) c
             = (Devuelve tt, c').
Proof. unfold bind, print_section, print. eauto. Qed.

Lemma indicadores_clave_devuelve (df : DataFrame) (c : Consola) :
  exists k c', indicadores_clave df c = (Devuelve k, c').
Proof. unfold indicadores_clave, bind, print_section, print, ret. eauto. Qed.

Lemma validacion_datos_devuelve (df : DataFrame) (c : Consola) :
  exists n c', validacion_datos df c = (Devuelve n, c').
Proof.
  unfold validacion_datos, bind, print_section, print, ret.
  destruct (Nat.eqb (total_faltantes df) 0); eauto.
Qed.

Lemma recomendaciones_lanza (df : DataFrame) (kpis : KPIs) (c : Consola) :
  existsb (con_roas plataforma) df
  && existsb (con_roas audiencia_objetivo) df = false ->
  recomendaciones df kpis c
  = (Lanza ValueError,
     (c ++ [Seccion "11. RECOMENDACIONES ESTRATEGICAS" []])%list).
Proof.
  intro H.
  pose proof (idxmax_None plataforma df) as P1.
  pose proof (idxmin_None plataforma df) as P2.
  pose proof (idxmax_None audiencia_objetivo df) as A1.
  unfold recomendaciones, bind, print_section, print, o_raise, ret, raise.
  destruct (idxmax (roas_medio plataforma df)) as [mp |]; [|reflexivity].
  destruct (idxmin (roas_medio plataforma df)) as [pp |]; [|reflexivity].
  destruct (idxmax (roas_medio audiencia_objetivo df)) as [me |];
    [|reflexivity].
  exfalso. apply andb_false_iff in H. destruct H as [H | H].
  - apply P1 in H. discriminate.
  - apply A1 in H. discriminate.
Qed.

(** X14: when the data file does not exist, [main] runs no analysis and
    draws nothing: [load_data] turns the [FileNotFoundError] into one
    [ERROR] line and [main] returns normally after it. *)
Theorem main_sin_archivo (read_csv : string -> option DataFrame)
  (CSV_FILE : string)
  (analisis_tipos_datos analisis_estadistico : DataFrame -> M unit)
  (generar_graficas generar_metricas_kpi : DataFrame -> KPIs -> M unit)
  (generar_comparativa_campanas : DataFrame -> M unit) :
  read_csv CSV_FILE = None ->
  forall c : Consola,
    main read_csv CSV_FILE analisis_tipos_datos analisis_estadistico
      generar_graficas generar_metricas_kpi generar_comparativa_campanas c
    = (Devuelve tt,
       (c ++ [Linea ERROR msg_no_encontrado [CTexto (Some CSV_FILE)]])%list).
Proof.
  intros H c. unfold main, load_data, bind. rewrite H. reflexivity.
Qed.

Lemma ejemplo_sin_archivo :
  main (fun _ => None) "datos_sinteticos.csv"
    (fun _ => ret tt) (fun _ => ret tt)
    (fun _ _ => ret tt) (fun _ _ => ret tt) (fun _ => ret tt) []
  = (Devuelve tt,
     [Linea ERROR msg_no_encontrado
        [CTexto (Some "datos_sinteticos.csv")]]).
Proof.
  exact (main_sin_archivo (fun _ => None) "datos_sinteticos.csv"
           (fun _ => ret tt) (fun _ => ret tt)
           (fun _ _ => ret tt) (fun _ _ => ret tt) (fun _ => ret tt)
           eq_refl []).
Defined.

Lemma main_hasta_campanas_top (read_csv : string -> option DataFrame)
  (CSV_FILE : string)
  (analisis_tipos_datos analisis_estadistico : DataFrame -> M unit)
  (df : DataFrame) :
  read_csv CSV_FILE = Some df ->
  (forall c, fst (analisis_tipos_datos df c) = Devuelve tt) ->
  (forall c, fst (analisis_estadistico df c) = Devuelve tt) ->
  forall c : Consola,
  exists (k : KPIs) (c8 : Consola),
  forall (generar_graficas generar_metricas_kpi : DataFrame -> KPIs -> M unit)
         (generar_comparativa_campanas : DataFrame -> M unit),
    main read_csv CSV_FILE analisis_tipos_datos analisis_estadistico
      generar_graficas generar_metricas_kpi generar_comparativa_campanas c
    = (campanas_top df 3 ;;
       campanas_bottom df 3 ;;
       validacion_datos df ;;
       recomendaciones df k ;;
       generar_graficas df k ;;
       generar_metricas_kpi df k ;;
       generar_comparativa_campanas df ;;
       print (Linea Plano msg_fin [])) c8.
Proof.
  intros Hread Ht He c.
  pose (c1 := (c ++ [Linea OK msg_cargados
                       [CEntero (Z.of_nat (List.length df))]])%list).
  destruct (analisis_general_devuelve df c1) as (c2 & E2).
  destruct (analisis_tipos_datos df c2) as [r3 c3] eqn:E3.
  assert (R3 : r3 = Devuelve tt) by (rewrite <- (Ht c2), E3; reflexivity).
  subst r3.
  destruct (analisis_estadistico df c3) as [r4 c4] eqn:E4.
  assert (R4 : r4 = Devuelve tt) by (rewrite <- (He c3), E4; reflexivity).
  subst r4.
  assert (E5 : exists c5, analisis_por_plataforma df c4 = (Devuelve tt, c5))
    by apply tabla_devuelve.
  destruct E5 as (c5 & E5).
  assert (E6 : exists c6, analisis_por_tipo_campana df c5 = (Devuelve tt, c6))
    by apply tabla_devuelve.
  destruct E6 as (c6 & E6).
  assert (E7 : exists c7, analisis_por_edad df c6 = (Devuelve tt, c7))
    by apply tabla_devuelve.
  destruct E7 as (c7 & E7).
  destruct (indicadores_clave_devuelve df c7) as (k & c8 & E8).
  exists k, c8. intros gg gm gc.
  unfold main.
  assert (E1 : load_data read_csv CSV_FILE c = (Devuelve (Some df), c1))
    by (unfold load_data; rewrite Hread; reflexivity).
  rewrite (bind_sigue _ _ _ _ _ E1).
  rewrite (bind_sigue _ _ _ _ _ E2).
  rewrite (bind_sigue _ _ _ _ _ E3).
  rewrite (bind_sigue _ _ _ _ _ E4).
  rewrite (bind_sigue _ _ _ _ _ E5).
  rewrite (bind_sigue _ _ _ _ _ E6).
  rewrite (bind_sigue _ _ _ _ _ E7).
  rewrite (bind_sigue _ _ _ _ _ E8).
  reflexivity.
Qed.

Lemma main_sin_filas (read_csv : string -> option DataFrame)
  (CSV_FILE : string)
  (analisis_tipos_datos analisis_estadistico : DataFrame -> M unit) :
  read_csv CSV_FILE = Some [] ->
  (forall c, fst (analisis_tipos_datos [] c) = Devuelve tt) ->
  (forall c, fst (analisis_estadistico [] c) = Devuelve tt) ->
  forall c : Consola,
  exists c' : Consola,
  forall (generar_graficas generar_metricas_kpi : DataFrame -> KPIs -> M unit)
         (generar_comparativa_campanas : DataFrame -> M unit),
    main read_csv CSV_FILE analisis_tipos_datos analisis_estadistico
      generar_graficas generar_metricas_kpi generar_comparativa_campanas c
    = (Lanza TypeError,
       (c' ++ [Seccion "8. TOP n CAMPANAS POR ROAS" [CEntero 3]])%list).
Proof.
  intros Hread Ht He c.
  destruct (main_hasta_campanas_top read_csv CSV_FILE analisis_tipos_datos
              analisis_estadistico [] Hread Ht He c) as (k & c8 & H).
  exists c8. intros gg gm gc. rewrite H.
  apply bind_lanza. apply campanas_top_lanza.
Qed.

Lemma main_hasta_recomendaciones (read_csv : string -> option DataFrame)
  (CSV_FILE : string)
  (analisis_tipos_datos analisis_estadistico : DataFrame -> M unit)
  (df : DataFrame) :
  read_csv CSV_FILE = Some df ->
  (forall c, fst (analisis_tipos_datos df c) = Devuelve tt) ->
  (forall c, fst (analisis_estadistico df c) = Devuelve tt) ->
  df <> [] ->
  existsb (con_roas plataforma) df
  && existsb (con_roas audiencia_objetivo) df = false ->
  forall c : Consola,
  exists c' : Consola,
  forall (generar_graficas generar_metricas_kpi : DataFrame -> KPIs -> M unit)
         (generar_comparativa_campanas : DataFrame -> M unit),
    main read_csv CSV_FILE analisis_tipos_datos analisis_estadistico
      generar_graficas generar_metricas_kpi generar_comparativa_campanas c
    = (Lanza ValueError,
       (c' ++ [Seccion "11. RECOMENDACIONES ESTRATEGICAS" []])%list).
Proof.
  intros Hread Ht He Hne Hno c.
  destruct (main_hasta_campanas_top read_csv CSV_FILE analisis_tipos_datos
              analisis_estadistico df Hread Ht He c) as (k & c8 & H).
  pose proof (campanas_top_devuelve df 3 c8 Hne) as E9.
  match type of E9 with
  | _ = (_, ?c9) => pose proof (campanas_bottom_devuelve df 3 c9 Hne) as E10
  end.
  match type of E10 with
  | _ = (_, ?c10) =>
      destruct (validacion_datos_devuelve df c10) as (n & c11 & E11)
  end.
  pose proof (recomendaciones_lanza df k c11 Hno) as E12.
  exists c11. intros gg gm gc. rewrite H.
  rewrite (bind_sigue _ _ _ _ _ E9).
  rewrite (bind_sigue _ _ _ _ _ E10).
  rewrite (bind_sigue _ _ _ _ _ E11).
  apply bind_lanza. exact E12.
Qed.

(** X15: [main] has no handler around the analysis, and an error ends
    it before anything is drawn.  When the file is read and the listings
    of sections 2 and 3 return: on a file that has only the header line
    [main] ends with the TypeError of [campanas_top], the last line
    printed being the heading of section 8; on a file with records of
    which none has both a platform and a ROAS, or none has both an
    audience and a ROAS, it ends with the ValueError of
    [recomendaciones], the last line printed being the heading of
    section 11.  In both cases nothing depends on the functions that
    draw, which are never reached. *)
Theorem main_propaga_el_error (read_csv : string -> option DataFrame)
  (CSV_FILE : string)
  (analisis_tipos_datos analisis_estadistico : DataFrame -> M unit)
  (generar_graficas generar_metricas_kpi : DataFrame -> KPIs -> M unit)
  (generar_comparativa_campanas : DataFrame -> M unit)
  (df : DataFrame) :
  read_csv CSV_FILE = Some df ->
  (forall c, fst (analisis_tipos_datos df c) = Devuelve tt) ->
  (forall c, fst (analisis_estadistico df c) = Devuelve tt) ->
  forall c : Consola,
    let fin :=
      main read_csv CSV_FILE analisis_tipos_datos analisis_estadistico
        generar_graficas generar_metricas_kpi generar_comparativa_campanas c
    in
    (df = [] ->
     fst fin = Lanza TypeError /\
     last (snd fin) (Seccion "" [])
     = Seccion "8. TOP n CAMPANAS POR ROAS" [CEntero 3] /\
     forall (otra_graficas otra_metricas : DataFrame -> KPIs -> M unit)
            (otra_comparativa : DataFrame -> M unit),
       main read_csv CSV_FILE analisis_tipos_datos analisis_estadistico
         otra_graficas otra_metricas otra_comparativa c
       = fin) /\
    (df <> [] ->
     existsb (con_roas plataforma) df
     && existsb (con_roas audiencia_objetivo) df = false ->
     fst fin = Lanza ValueError /\
     last (snd fin) (Seccion "" [])
     = Seccion "11. RECOMENDACIONES ESTRATEGICAS" [] /\
     forall (otra_graficas otra_metricas : DataFrame -> KPIs -> M unit)
            (otra_comparativa : DataFrame -> M unit),
       main read_csv CSV_FILE analisis_tipos_datos analisis_estadistico
         otra_graficas otra_metricas otra_comparativa c
       = fin).
Proof.
  intros Hread Ht He c. cbv zeta. split.
  - intros ->.
    destruct (main_sin_filas read_csv CSV_FILE
                analisis_tipos_datos analisis_estadistico
                Hread Ht He c) as (c' & H).
    rewrite (H generar_graficas generar_metricas_kpi
               generar_comparativa_campanas).
    cbn [fst snd]. split; [reflexivity|]. split; [apply last_last|].
    intros g1 g2 g3. apply H.
  - intros Hne Hno.
    destruct (main_hasta_recomendaciones read_csv CSV_FILE
                analisis_tipos_datos analisis_estadistico df
                Hread Ht He Hne Hno c) as (c' & H).
    rewrite (H generar_graficas generar_metricas_kpi
               generar_comparativa_campanas).
    cbn [fst snd]. split; [reflexivity|]. split; [apply last_last|].
    intros g1 g2 g3. apply H.
Qed.

(** A file with a header only stops at the first ranking; a file whose
    only campaign has no ROAS stops at the recommendations. *)
Lemma ejemplo_archivo_sin_filas :
  fst (main (fun _ => Some []) "datos_sinteticos.csv"
         (fun _ => ret tt) (fun _ => ret tt)
         (fun _ _ => ret tt) (fun _ _ => ret tt) (fun _ => ret tt) [])
  = Lanza TypeError /\
  fst (main (fun _ => Some df_sin_roas) "datos_sinteticos.csv"
         (fun _ => ret tt) (fun _ => ret tt)
         (fun _ _ => ret tt) (fun _ _ => ret tt) (fun _ => ret tt) [])
  = Lanza ValueError.
Proof.
  split.
  - apply (main_propaga_el_error (fun _ => Some []) "datos_sinteticos.csv"
             (fun _ => ret tt) (fun _ => ret tt)
             (fun _ _ => ret tt) (fun _ _ => ret tt) (fun _ => ret tt) []
             eq_refl (fun _ => eq_refl) (fun _ => eq_refl) []).
    reflexivity.
  - apply (main_propaga_el_error (fun _ => Some df_sin_roas)
             "datos_sinteticos.csv"
             (fun _ => ret tt) (fun _ => ret tt)
             (fun _ _ => ret tt) (fun _ _ => ret tt) (fun _ => ret tt)
             df_sin_roas
             eq_refl (fun _ => eq_refl) (fun _ => eq_refl) []).
    + discriminate.
    + reflexivity.
Defined.
